(** * IBPM: the Euler time stepper (src/Euler.cc) and the driver (src/ibpm.cc)

    A shallow embedding of the two translation units of the immersed
    boundary projection code whose bodies are available:

    - [Euler::Euler] and [Euler::advance], the one-stage member of the
      TimeStepper family;
    - [main], [str2model] and [GetSolver] of the sample driver.

    The third source file, RungeKutta2.h, declares the two-stage stepper and
    documents its scheme (both constraint equations read C omega = b_{n+1});
    its member functions have no body here.

    The classes these functions call into (Scalar, Flux, BoundaryVector,
    State, Geometry, NavierStokesModel, ProjectionSolver, ParmParser, the
    output routines) have no body among the sources.  Their operations are
    taken as the fields of interface records and classes, so every theorem
    below holds for all implementations of them.  A C++ [double] is an IEEE
    binary64 number, which is what Rocq's primitive [float] is. *)

From Stdlib Require Import ZArith List String Ascii Bool Floats Lia.
Import ListNotations.

Set Implicit Arguments.

(** ** Numbers *)

Definition double : Set := float.

Declare Scope double_scope.
Delimit Scope double_scope with double.
Notation "x + y" := (PrimFloat.add x y) : double_scope.
Notation "x * y" := (PrimFloat.mul x y) : double_scope.
Notation "x / y" := (PrimFloat.div x y) : double_scope.

Definition d0 : double := PrimFloat.zero.
Definition d1 : double := PrimFloat.one.
Definition d2 : double := PrimFloat.two.

(** ** The field classes

    Scalar (a grid field), Flux and BoundaryVector come from headers that are
    not part of the sources; only the operators applied to them in Euler.cc
    and ibpm.cc are listed here, one field per C++ operator. *)

Class FieldSpace : Type := {
  Scalar : Type;
  Flux : Type;
  BoundaryVector : Type;
  (* Euler.cc *)
  Scalar_imul_double : Scalar -> double -> Scalar;   (* s *= c  *)
  Scalar_iadd_double : Scalar -> double -> Scalar;   (* s += c  *)
  Scalar_imul : Scalar -> Scalar -> Scalar;          (* s *= t  *)
  Scalar_iadd : Scalar -> Scalar -> Scalar;          (* s += t  *)
  double_mul_Scalar : double -> Scalar -> Scalar;    (* c * s   *)
  (* ibpm.cc *)
  Scalar_assign : Scalar -> double -> Scalar;        (* s = c   *)
  Flux_assign : Flux -> double -> Flux;              (* q = c   *)
  BoundaryVector_assign : BoundaryVector -> double -> BoundaryVector;
  Scalar_isub : Scalar -> Scalar -> Scalar;          (* s -= t  *)
  Flux_isub : Flux -> Flux -> Flux;                  (* q -= r  *)
  Scalar_Ngrid : Scalar -> Z;
  Flux_Ngrid : Flux -> Z
}.

(** ** Euler.cc *)

Module Core.

Section Definitions.

Context {F : FieldSpace}.

(** State as Euler.cc uses it: [x.gamma], [x.q], [x.f], [x.time].  State.h is
    not among the sources; [x.time] receives [_timestep], a [double], through
    [+=], and is a [double] itself. *)
Record State : Type := mkState {
  gamma : Scalar;
  q : Flux;
  f : BoundaryVector;
  time : double
}.

(** The Geometry object the model points to.  [Geometry] is the value of the
    object (where the bodies currently are); the three member functions used
    by [Euler::advance] act on it.  [moveBodies] is the only one that writes. *)
Class GeometryClass : Type := {
  Geometry : Type;
  isStationary : Geometry -> bool;
  moveBodies : double -> Geometry -> Geometry;
  getVelocities : Geometry -> BoundaryVector
}.

(** The abstract class NavierStokesModel: one record field per virtual member
    function called by the stepper.  All are const member functions of a
    model held through a pointer to const. *)
Record NavierStokesModel : Type := {
  getLambda : Scalar;
  S : Scalar -> Scalar;
  Sinv : Scalar -> Scalar;
  nonlinear : State -> Scalar;
  computeFlux : Scalar -> Flux -> Flux   (* computeFlux(gamma, q): the new q *)
}.

(** ProjectionSolver::solve(a, b, gamma, f) writes gamma and f. *)
Record ProjectionSolver : Type := {
  solve : Scalar -> BoundaryVector -> Scalar -> BoundaryVector
          -> Scalar * BoundaryVector
}.

(** TimeStepper::createSolver(timestep), a member of the base class. *)
Class TimeStepperBase : Type := {
  createSolver : NavierStokesModel -> double -> ProjectionSolver
}.

Context {G : GeometryClass} {B : TimeStepperBase}.

(** The data members of an Euler object. *)
Record Euler : Type := {
  _model : NavierStokesModel;
  _timestep : double;
  _linearTermEigenvalues : Scalar;
  _solver : ProjectionSolver
}.

(** Calls that leave Euler.cc, in the order they are made. *)
Inductive Call : Type :=
| call_isStationary
| call_moveBodies (t : double)
| call_S (x : Scalar)
| call_Sinv (x : Scalar)
| call_nonlinear (x : State)
| call_getVelocities
| call_solve (a : Scalar) (b : BoundaryVector)
| call_computeFlux (g : Scalar).

(** What [advance] can change besides its argument: the geometry object
    behind [_model->getGeometry()], and the record of calls made so far. *)
Record World : Type := mkWorld {
  geometry : Geometry;
  calls : list Call
}.

Definition Sim (A : Type) : Type := World -> A * World.

Definition ret {A : Type} (a : A) : Sim A := fun w => (a, w).

Definition bind {A C : Type} (m : Sim A) (k : A -> Sim C) : Sim C :=
  fun w => let (a, w') := m w in k a w'.

Definition record (c : Call) : Sim unit :=
  fun w => (tt, mkWorld (geometry w) (calls w ++ [c])).

Definition geom_isStationary : Sim bool :=
  bind (record call_isStationary) (fun _ w => (isStationary (geometry w), w)).

Definition geom_moveBodies (t : double) : Sim unit :=
  bind (record (call_moveBodies t))
       (fun _ w => (tt, mkWorld (moveBodies t (geometry w)) (calls w))).

Definition geom_getVelocities : Sim BoundaryVector :=
  bind (record call_getVelocities) (fun _ w => (getVelocities (geometry w), w)).

Definition model_S (m : NavierStokesModel) (x : Scalar) : Sim Scalar :=
  bind (record (call_S x)) (fun _ => ret (S m x)).

Definition model_Sinv (m : NavierStokesModel) (x : Scalar) : Sim Scalar :=
  bind (record (call_Sinv x)) (fun _ => ret (Sinv m x)).

Definition model_nonlinear (m : NavierStokesModel) (x : State) : Sim Scalar :=
  bind (record (call_nonlinear x)) (fun _ => ret (nonlinear m x)).

Definition model_computeFlux (m : NavierStokesModel) (g : Scalar) (q0 : Flux)
  : Sim Flux :=
  bind (record (call_computeFlux g)) (fun _ => ret (computeFlux m g q0)).

Definition solver_solve (s : ProjectionSolver) (a : Scalar)
  (b : BoundaryVector) (g : Scalar) (f0 : BoundaryVector)
  : Sim (Scalar * BoundaryVector) :=
  bind (record (call_solve a b)) (fun _ => ret (solve s a b g f0)).

End Definitions.

Declare Scope sim_scope.
Delimit Scope sim_scope with sim.
Notation "x <- m ;; k" := (bind m (fun x => k))
  (at level 61, m at next level, right associativity) : sim_scope.
Notation "m ;;; k" := (bind m (fun _ => k))
  (at level 61, right associativity) : sim_scope.

Section Stepper.

Context {F : FieldSpace} {G : GeometryClass} {B : TimeStepperBase}.

Local Open Scope sim_scope.

(** Euler::Euler(model, timestep) *)
Definition Euler_new (model : NavierStokesModel) (timestep : double) : Euler :=
  let eig := getLambda model in
  let eig := Scalar_imul_double eig (timestep / d2)%double in
  let eig := Scalar_iadd_double eig d1 in
  {| _model := model;
     _timestep := timestep;
     _linearTermEigenvalues := eig;
     _solver := createSolver model timestep |}.

(** void Euler::advance(State& x) *)
Definition advance (this : Euler) (x : State) : Sim State :=
  stationary <- geom_isStationary ;;
  (if negb stationary then geom_moveBodies (time x) else ret tt) ;;;
  a <- model_S (_model this) (gamma x) ;;
  let a := Scalar_imul a (_linearTermEigenvalues this) in
  a <- model_Sinv (_model this) a ;;
  nl <- model_nonlinear (_model this) x ;;
  let a := Scalar_iadd a (double_mul_Scalar (_timestep this) nl) in
  b <- geom_getVelocities ;;
  gf <- solver_solve (_solver this) a b (gamma x) (f x) ;;
  q' <- model_computeFlux (_model this) (fst gf) (q x) ;;
  ret {| gamma := fst gf; q := q'; f := snd gf;
         time := (time x + _timestep this)%double |}.

(** The driver's loop body restricted to the stepper: n calls in a row. *)
Fixpoint advance_n (this : Euler) (n : nat) (x : State) : Sim State :=
  match n with
  | O => ret x
  | Datatypes.S k => x' <- advance this x ;; advance_n this k x'
  end.

(** How many times [_solver->solve] was called. *)
Fixpoint count_solve (l : list Call) : nat :=
  match l with
  | [] => 0
  | call_solve _ _ :: rest => Datatypes.S (count_solve rest)
  | _ :: rest => count_solve rest
  end.



(** The geometry as the first three lines of [advance] leave it. *)
Definition geometry_in_step (x : State) (g : Geometry) : Geometry :=
  if isStationary g then g else moveBodies (time x) g.

(** The right-hand side [a] built by lines 42-47 of Euler.cc. *)
Definition rhs_a (this : Euler) (x : State) : Scalar :=
  Scalar_iadd
    (Sinv (_model this)
       (Scalar_imul (S (_model this) (gamma x)) (_linearTermEigenvalues this)))
    (double_mul_Scalar (_timestep this) (nonlinear (_model this) x)).

(** [t + h + ... + h], with n additions done from the left in double. *)
Fixpoint add_n_times (n : nat) (t h : double) : double :=
  match n with
  | O => t
  | Datatypes.S k => add_n_times k (t + h)%double h
  end.

(** The calls one [advance] makes, from the world it starts in. *)
Definition calls_of_advance (this : Euler) (x : State) (g : Geometry)
  : list Call :=
  let a := rhs_a this x in
  let b := getVelocities (geometry_in_step x g) in
  call_isStationary
    :: (if isStationary g then [] else [call_moveBodies (time x)])
    ++ [call_S (gamma x);
        call_Sinv (Scalar_imul (S (_model this) (gamma x))
                               (_linearTermEigenvalues this));
        call_nonlinear x;
        call_getVelocities;
        call_solve a b;
        call_computeFlux (fst (solve (_solver this) a b (gamma x) (f x)))].

(** The state one [advance] leaves in [x]. *)
Definition state_after_advance (this : Euler) (x : State) (g : Geometry)
  : State :=
  let a := rhs_a this x in
  let b := getVelocities (geometry_in_step x g) in
  let gf := solve (_solver this) a b (gamma x) (f x) in
  {| gamma := fst gf;
     q := computeFlux (_model this) (fst gf) (q x);
     f := snd gf;
     time := (time x + _timestep this)%double |}.

End Stepper.

End Core.

(** ** ibpm.cc *)

Module Driver.

Inductive ModelType : Set := LINEAR | NONLINEAR | ADJOINT | LINEARPERIODIC | INVALID.

Definition ModelType_eqb (a b : ModelType) : bool :=
  match a, b with
  | LINEAR, LINEAR | NONLINEAR, NONLINEAR | ADJOINT, ADJOINT
  | LINEARPERIODIC, LINEARPERIODIC | INVALID, INVALID => true
  | _, _ => false
  end.

(** The values main obtains from ParmParser, one field per local variable, and
    the answer of [parser.inputIsValid()]. *)
Record Config : Type := {
  helpFlag : bool;
  name : string;
  nx : Z;
  ny : Z;
  ngrid : Z;
  length : double;
  xOffset : double;
  yOffset : double;
  xShift : double;
  yShift : double;
  geomFile : string;
  Reynolds : double;
  dt : double;
  modelName : string;
  baseFlow : string;
  integratorType : string;
  icFile : string;
  outdir : string;
  iTecplot : Z;
  iRestart : Z;
  iForce : Z;
  numSteps : Z;
  period : Z;
  periodStart : Z;
  periodBaseFlowName : string;
  subtractBaseflow : bool;
  numDigitInFileName : string;
  inputIsValid : bool
}.

Inductive OutputKind : Set := OutputTecplot | OutputRestart | OutputForce.

(** How a computation inside main ends: it goes on with a value, calls
    [exit(code)], or fails an [assert]. *)
Inductive Result (A : Type) : Type :=
| Normal (a : A)
| Exit (code : Z)
| Abort.

Arguments Exit {A} code.
Arguments Abort {A}.

Section Definitions.

Context {F : FieldSpace}.

(** State as ibpm.cc uses it: [x.omega], [x.f], [x.q], [x.timestep]. *)
Record State : Type := mkState {
  omega : Scalar;
  q : Flux;
  f : BoundaryVector;
  timestep : Z
}.

(** Everything main calls that has no body among the sources.  Files are
    read through [Geometry_load], [State_load] and [TimeStepper_load]; each
    returns the success flag of the C++ call and the object as the call
    leaves it. *)
Class Collaborators : Type := {
  MakeLowercase : string -> string;
  AddSlashToPath : string -> string;
  sprintf : string -> Z -> string;
  Grid : Type;
  Grid_new : Z -> Z -> Z -> double -> double -> double -> Grid;
  setXShift : double -> Grid -> Grid;
  setYShift : double -> Grid -> Grid;
  Geometry : Type;
  Geometry_new : Geometry;
  Geometry_load : string -> Geometry -> bool * Geometry;
  getNumPoints : Geometry -> Z;
  Flux_UniformFlow : Grid -> double -> double -> Flux;
  State_new : Grid -> Z -> State;
  State_load : string -> State -> bool * State;
  computeNetForce : State -> double * double
}.

Context {E : Collaborators}.

(** The four model classes, as the constructor call that builds each. *)
Inductive Model : Type :=
| NonlinearNavierStokes (grid : Grid) (geom : Geometry) (Re : double)
    (q_potential : Flux)
| LinearizedNavierStokes (grid : Grid) (geom : Geometry) (Re : double)
    (x00 : State)
| AdjointNavierStokes (grid : Grid) (geom : Geometry) (Re : double)
    (x00 : State)
| LinearizedPeriodicNavierStokes (grid : Grid) (geom : Geometry) (Re : double)
    (x0 : list State) (period : Z).

(** The TimeStepper interface main uses.  [TimeStepper] is the value of the
    object; the four constructors GetSolver chooses from are the first four
    fields.  [advance] returns the stepper and the state as the call leaves
    them.  Every call is taken to return: main has no try block and tests no
    result of [advance], so a call that does not come back (an exception out
    of a stepper, say) ends the process inside code that is not main's and is
    not described here.  The same holds for [computeNetForce] and the logger
    calls.  Nothing below is to be read as saying that the loop cannot
    fail. *)
Class TimeSteppers : Type := {
  TimeStepper : Type;
  new_Euler : Grid -> Model -> double -> TimeStepper;
  new_AdamsBashforth : Grid -> Model -> double -> TimeStepper;
  new_RungeKutta2 : Grid -> Model -> double -> TimeStepper;
  new_RungeKutta3 : Grid -> Model -> double -> TimeStepper;
  TimeStepper_getName : TimeStepper -> string;
  TimeStepper_load : string -> TimeStepper -> bool * TimeStepper;
  TimeStepper_init : TimeStepper -> TimeStepper;
  TimeStepper_advance : TimeStepper -> State -> TimeStepper * State
}.

(** What the process does that can be seen from outside, in order. *)
Inductive Event : Type :=
| cout (s : string)
| cout_int (before : string) (n : Z) (after : string)
| cout_double (s : string) (d : double)
| cout_force (drag2 lift2 : double)
| cerr (s : string)
| parser_printUsage
| mkdir (path : string)
| parser_saveParameters (path : string)
| model_init (m : Model)
| solver_save (path : string)
| logger_addOutput (o : OutputKind) (every : Z)
| logger_init
| logger_doOutput (x : State)
| logger_cleanup
| solver_advance (x : State)
| delete_solver
| delete_model.

Definition Prog (A : Type) : Type := list Event -> Result A * list Event.

Definition ret {A : Type} (a : A) : Prog A := fun log => (Normal a, log).

Definition bind {A C : Type} (m : Prog A) (k : A -> Prog C) : Prog C :=
  fun log =>
    match m log with
    | (Normal a, log') => k a log'
    | (Exit c, log') => (Exit c, log')
    | (Abort, log') => (Abort, log')
    end.

Definition emit (e : Event) : Prog unit := fun log => (Normal tt, log ++ [e]).

Definition exit {A : Type} (code : Z) : Prog A := fun log => (Exit code, log).

Definition assert (b : bool) : Prog unit :=
  fun log => if b then (Normal tt, log) else (Abort, log).

End Definitions.

Declare Scope prog_scope.
Delimit Scope prog_scope with prog.
Notation "x <- m ;; k" := (bind m (fun x => k))
  (at level 61, m at next level, right associativity) : prog_scope.
Notation "m ;;; k" := (bind m (fun _ => k))
  (at level 61, right associativity) : prog_scope.

Section Program.

Context {F : FieldSpace} {E : Collaborators} {T : TimeSteppers}.

Local Open Scope prog_scope.
Local Open Scope string_scope.

(** ModelType str2model( string modelName ) *)
Definition str2model (modelName : string) : Prog ModelType :=
  let modelName := MakeLowercase modelName in
  if modelName =? "nonlinear" then ret NONLINEAR
  else if modelName =? "linear" then ret LINEAR
  else if modelName =? "adjoint" then ret ADJOINT
  else if modelName =? "linearperiodic" then ret LINEARPERIODIC
  else emit (cerr ("Unrecognized model: " ++ modelName)) ;;; ret INVALID.

(** TimeStepper* GetSolver( grid, model, dt, solverType ) *)
Definition GetSolver (grid : Grid) (model : Model) (dt : double)
  (solverType : string) : Prog TimeStepper :=
  let solverType := MakeLowercase solverType in
  if solverType =? "euler" then ret (new_Euler grid model dt)
  else if solverType =? "ab2" then ret (new_AdamsBashforth grid model dt)
  else if solverType =? "rk2" then ret (new_RungeKutta2 grid model dt)
  else if solverType =? "rk3" then ret (new_RungeKutta3 grid model dt)
  else emit (cerr ("ERROR: unrecognized solver: " ++ solverType)) ;;; exit 1.

(** main, lines 99-102 *)
Definition check_parameters (cfg : Config) (modelType : ModelType)
  : Prog unit :=
  if negb (inputIsValid cfg) || ModelType_eqb modelType INVALID || helpFlag cfg
  then emit parser_printUsage ;;; exit 1
  else ret tt.

(** main, lines 104-125 *)
Definition check_baseflow_options (cfg : Config) (modelType : ModelType)
  : Prog unit :=
  if negb (ModelType_eqb modelType NONLINEAR) then
    if negb (ModelType_eqb modelType LINEARPERIODIC) && (baseFlow cfg =? "")
    then
      emit (cout "ERROR: for linear or adjoint models, must specify a base flow") ;;;
      exit 1
    else if negb (ModelType_eqb modelType LINEARPERIODIC)
            && negb (periodBaseFlowName cfg =? "")
    then
      emit (cout "WARNING: for linear or adjoint models, a periodic base flow is not needed") ;;;
      exit 1
    else if ModelType_eqb modelType LINEARPERIODIC
            && (periodBaseFlowName cfg =? "")
    then
      emit (cout "ERROR: for linear periodic model, must specify a periodic base flow") ;;;
      exit 1
    else if ModelType_eqb modelType LINEARPERIODIC
            && negb (baseFlow cfg =? "")
    then
      emit (cout "WARNING: for linear periodic model, a single baseflow is not needed") ;;;
      exit 1
    else ret tt
  else ret tt.

(** main, lines 127-151: output directory, command line, grid.  The text of
    the command line and the lines that echo the grid parameters are left
    out. *)
Definition setup_grid (cfg : Config) : Prog (string * Grid) :=
  let outdir := AddSlashToPath (outdir cfg) in
  emit (mkdir outdir) ;;;
  emit (cout "Command:") ;;;
  emit (parser_saveParameters (outdir ++ name cfg ++ ".cmd")) ;;;
  emit (cout ("Run name: " ++ name cfg)) ;;;
  emit (cout "Grid parameters:") ;;;
  let grid := Grid_new (nx cfg) (ny cfg) (ngrid cfg) (length cfg)
                       (xOffset cfg) (yOffset cfg) in
  let grid := setXShift (xShift cfg) grid in
  let grid := setYShift (yShift cfg) grid in
  ret (outdir, grid).

(** main, lines 153-161 *)
Definition setup_geometry (cfg : Config) : Prog Geometry :=
  emit (cout ("Reading geometry from file " ++ geomFile cfg)) ;;;
  let (ok, geom) := Geometry_load (geomFile cfg) Geometry_new in
  if ok then
    emit (cout_int "  " (getNumPoints geom) " points on the boundary") ;;;
    ret geom
  else exit (-1).

(** main, lines 189-193: the loop over the periodic base-flow files.  [x0] is
    the part of the vector from index [i] on.  In the source [i + periodStart]
    is an [int] sum and the name is written by [sprintf] into
    [char pbffilename[256]]; here the sum is in Z and the name a string of any
    length, which is the same as long as the sum stays within [int] and the
    name within 255 characters.  Statements about the names carry these two
    bounds as hypotheses. *)
Fixpoint load_periodic (pbf : string) (periodStart : Z) (i : Z)
  (x0 : list State) : Prog (list State) :=
  match x0 with
  | [] => ret []
  | xi :: rest =>
      emit (cout_int "loading the " i "-th periodic baseflow:") ;;;
      let pbffilename := sprintf pbf (i + periodStart) in
      let xi := snd (State_load pbffilename xi) in
      rest <- load_periodic pbf periodStart (i + 1) rest ;;
      ret (xi :: rest)
  end.

(** main, lines 163-205: the model and the base flow [x00].  The results of
    [x00.load] and [x0[i].load] are dropped, as in the source.  A period
    below 1 makes [vector<State> x0(period, x00)] throw or [x0[0]] read an
    empty vector; both are given as [Abort].  [assert( model != NULL )]
    cannot fail after the switch and is left out. *)
Definition setup_model (cfg : Config) (modelType : ModelType) (grid : Grid)
  (geom : Geometry) : Prog (Model * State) :=
  emit (cout_double "Reynolds number = " (Reynolds cfg)) ;;;
  let magnitude := d1 in
  let alpha := d0 in
  let q_potential := Flux_UniformFlow grid magnitude alpha in
  emit (cout "Setting up Navier Stokes model...") ;;;
  let x00 := State_new grid (getNumPoints geom) in
  mx <- match modelType with
        | NONLINEAR =>
            ret (NonlinearNavierStokes grid geom (Reynolds cfg) q_potential,
                 x00)
        | LINEAR =>
            let x00 := snd (State_load (baseFlow cfg) x00) in
            ret (LinearizedNavierStokes grid geom (Reynolds cfg) x00, x00)
        | ADJOINT =>
            let x00 := snd (State_load (baseFlow cfg) x00) in
            ret (AdjointNavierStokes grid geom (Reynolds cfg) x00, x00)
        | LINEARPERIODIC =>
            if (period cfg <? 1)%Z then
              fun log => (Abort, log)
            else
              x0 <- load_periodic (periodBaseFlowName cfg) (periodStart cfg) 0
                      (repeat x00 (Z.to_nat (period cfg))) ;;
              let x00 := hd x00 x0 in
              ret (LinearizedPeriodicNavierStokes grid geom (Reynolds cfg) x0
                     (period cfg), x00)
        | INVALID =>
            emit (cout "ERROR: must specify a valid modelType") ;;; exit 1
        end ;;
  emit (model_init (fst mx)) ;;;
  emit (cout "done") ;;;
  ret mx.

(** main, lines 207-214 *)
Definition setup_timestepper (cfg : Config) (outdir : string) (grid : Grid)
  (model : Model) : Prog TimeStepper :=
  solver <- GetSolver grid model (dt cfg) (integratorType cfg) ;;
  emit (cout ("Using " ++ TimeStepper_getName solver ++ " timestepper")) ;;;
  emit (cout_double "  dt = " (dt cfg)) ;;;
  let (ok, solver) := TimeStepper_load (outdir ++ name cfg) solver in
  if negb ok then
    let solver := TimeStepper_init solver in
    emit (solver_save (outdir ++ name cfg)) ;;;
    ret solver
  else ret solver.

(** main, lines 217-220: the state before any file is read *)
Definition zero_state (grid : Grid) (geom : Geometry) : State :=
  let x := State_new grid (getNumPoints geom) in
  let x := mkState (Scalar_assign (omega x) d0) (q x) (f x) (timestep x) in
  let x := mkState (omega x) (q x) (BoundaryVector_assign (f x) d0)
                   (timestep x) in
  let x := mkState (omega x) (Flux_assign (q x) d0) (f x) (timestep x) in
  x.

(** main, lines 231-233 *)
Definition subtract_baseflow (x x00 : State) : State :=
  let x := mkState (omega x) (Flux_isub (q x) (q x00)) (f x) (timestep x) in
  let x := mkState (Scalar_isub (omega x) (omega x00)) (q x) (f x)
                   (timestep x) in
  let x := mkState (omega x) (q x) (BoundaryVector_assign (f x) d0)
                   (timestep x) in
  x.

(** main, lines 216-244 *)
Definition initial_condition (cfg : Config) (modelType : ModelType)
  (grid : Grid) (geom : Geometry) (x00 : State) : Prog State :=
  let x := zero_state grid geom in
  x <- (if negb (icFile cfg =? "") then
          emit (cout ("Loading initial condition from file: " ++ icFile cfg)) ;;;
          let (ok, x) := State_load (icFile cfg) x in
          (if negb ok
           then emit (cout "  (failed: using zero initial condition)")
           else ret tt) ;;;
          if subtractBaseflow cfg then
            emit (cout "  Subtract initial condition by baseflow to form a linear initial perturbation") ;;;
            if negb (ModelType_eqb modelType NONLINEAR) then
              assert (Flux_Ngrid (q x) =? Flux_Ngrid (q x00))%Z ;;;
              assert (Scalar_Ngrid (omega x) =? Scalar_Ngrid (omega x00))%Z ;;;
              ret (subtract_baseflow x x00)
            else
              emit (cout "Flag subbaseflow should be true only for linear cases") ;;;
              exit 1
          else ret x
        else
          emit (cout "Using zero initial condition") ;;;
          ret x) ;;
  emit (cout_int "initial time = " (timestep x) "") ;;;
  ret x.

(** main, lines 246-267 *)
Definition setup_logger (cfg : Config) (x : State) : Prog unit :=
  (if (iTecplot cfg >? 0)%Z then
     emit (cout_int "Writing Tecplot file every " (iTecplot cfg) " steps") ;;;
     emit (logger_addOutput OutputTecplot (iTecplot cfg))
   else ret tt) ;;;
  (if (iRestart cfg >? 0)%Z then
     emit (cout_int "Writing restart file every " (iRestart cfg) " steps") ;;;
     emit (logger_addOutput OutputRestart (iRestart cfg))
   else ret tt) ;;;
  (if (iForce cfg >? 0)%Z then
     emit (cout_int "Writing forces every " (iForce cfg) " steps") ;;;
     emit (logger_addOutput OutputForce (iForce cfg))
   else ret tt) ;;;
  emit logger_init ;;;
  emit (logger_doOutput x) ;;;
  emit (cout_int "Integrating for " (numSteps cfg) " steps").

(** main, lines 269-278: [todo] iterations are left, the next one has index
    [i].  In the source [i] and [numSteps] are [int]; counting in Z is the
    same for every numSteps below INT_MAX (at INT_MAX the last [++i]
    overflows). *)
Fixpoint integrate (todo : nat) (i : Z) (solver : TimeStepper) (x : State)
  : Prog (TimeStepper * State) :=
  match todo with
  | O => ret (solver, x)
  | S todo =>
      emit (cout_int "step " i "") ;;;
      emit (solver_advance x) ;;;
      let (solver, x) := TimeStepper_advance solver x in
      let (drag, lift) := computeNetForce x in
      emit (cout_force (drag * d2)%double (lift * d2)%double) ;;;
      emit (logger_doOutput x) ;;;
      integrate todo (i + 1) solver x
  end.

(** The objects main holds when it reaches line 216. *)
Record Setup : Type := {
  setup_modelType : ModelType;
  setup_outdir : string;
  setup_grid_ : Grid;
  setup_geom : Geometry;
  setup_model_ : Model;
  setup_x00 : State;
  setup_solver : TimeStepper
}.

(** main, lines 42-214 *)
Definition startup (cfg : Config) : Prog Setup :=
  emit (cout "Immersed Boundary Projection Method (IBPM), version IBPM_VERSION") ;;;
  modelType <- str2model (modelName cfg) ;;
  check_parameters cfg modelType ;;;
  check_baseflow_options cfg modelType ;;;
  og <- setup_grid cfg ;;
  geom <- setup_geometry cfg ;;
  mx <- setup_model cfg modelType (snd og) geom ;;
  solver <- setup_timestepper cfg (fst og) (snd og) (fst mx) ;;
  ret {| setup_modelType := modelType;
         setup_outdir := fst og;
         setup_grid_ := snd og;
         setup_geom := geom;
         setup_model_ := fst mx;
         setup_x00 := snd mx;
         setup_solver := solver |}.

(** main, lines 246-283.  The constructors of the three output objects
    (lines 247-249) only store file names and are left out.  After
    [logger.cleanup()] come [delete solver] and [delete model] (lines
    280-281), then [return 0]. *)
Definition time_loop (cfg : Config) (solver : TimeStepper) (x : State)
  : Prog Z :=
  setup_logger cfg x ;;;
  sx <- integrate (Z.to_nat (numSteps cfg)) 1 solver x ;;
  emit logger_cleanup ;;;
  emit delete_solver ;;;
  emit delete_model ;;;
  ret 0%Z.

(** int main(int argc, char* argv[]), after the parameters are read *)
Definition main (cfg : Config) : Prog Z :=
  s <- startup cfg ;;
  x <- initial_condition cfg (setup_modelType s) (setup_grid_ s)
         (setup_geom s) (setup_x00 s) ;;
  time_loop cfg (setup_solver s) x.

(** Running main from an empty console. *)
Definition run (cfg : Config) : Result Z * list Event := main cfg [].

(** The model type main works with. *)
Definition modelType_of (cfg : Config) : ModelType :=
  match fst (str2model (modelName cfg) []) with
  | Normal m => m
  | _ => INVALID
  end.

(** How many times [solver->advance(x)] was called. *)
Fixpoint count_advance (log : list Event) : nat :=
  match log with
  | [] => 0
  | solver_advance _ :: rest => S (count_advance rest)
  | _ :: rest => count_advance rest
  end.

(** The states handed to [solver->advance(x)], in order. *)
Fixpoint advanced_states (log : list Event) : list State :=
  match log with
  | [] => []
  | solver_advance x :: rest => x :: advanced_states rest
  | _ :: rest => advanced_states rest
  end.

(** The states the loop of main hands to [solver->advance(x)] when it starts
    from [x] with [todo] iterations to go. *)
Fixpoint trajectory (todo : nat) (solver : TimeStepper) (x : State)
  : list State :=
  match todo with
  | O => []
  | S todo =>
      x :: trajectory todo (fst (TimeStepper_advance solver x))
                           (snd (TimeStepper_advance solver x))
  end.

(** Whether the line [msg] was written to cout. *)
Definition wrote (log : list Event) (msg : string) : bool :=
  existsb (fun e => match e with
                    | cout s => (s =? msg)
                    | _ => false
                    end) log.

(** A part of main that only adds to the console and does not call
    [solver->advance]. *)
Definition quiet {A : Type} (m : Prog A) : Prop :=
  forall log, exists added,
    snd (m log) = (log ++ added)%list /\ advanced_states added = [].

(** The four diagnostics of lines 104-125. *)
Definition baseflow_diagnostics : list string :=
  [ "ERROR: for linear or adjoint models, must specify a base flow";
    "WARNING: for linear or adjoint models, a periodic base flow is not needed";
    "ERROR: for linear periodic model, must specify a periodic base flow";
    "WARNING: for linear periodic model, a single baseflow is not needed" ].

(** The base-flow options that lines 104-125 let through, per model type. *)
Definition baseflow_options_fit (cfg : Config) (mt : ModelType) : Prop :=
  match mt with
  | NONLINEAR => True
  | LINEAR | ADJOINT => baseFlow cfg <> "" /\ periodBaseFlowName cfg = ""
  | LINEARPERIODIC => periodBaseFlowName cfg <> "" /\ baseFlow cfg = ""
  | INVALID => False
  end.

(** The names GetSolver knows. *)
Definition known_scheme (solverType : string) : bool :=
  let s := MakeLowercase solverType in
  (s =? "euler") || (s =? "ab2") || (s =? "rk2") || (s =? "rk3").

(** The state [x] holds after lines 217-225 when the subbaseflow flag is
    off or the model is nonlinear. *)
Definition loaded_or_zero (cfg : Config) (grid : Grid) (geom : Geometry)
  : State :=
  if icFile cfg =? "" then zero_state grid geom
  else snd (State_load (icFile cfg) (zero_state grid geom)).

End Program.

End Driver.

(** ** Concrete collaborators

    One implementation of every interface above, small enough to run, for
    evaluating [advance] and [main] on explicit inputs. *)

Module Sample.

Fixpoint map2 (op : double -> double -> double) (u v : list double)
  : list double :=
  match u, v with
  | a :: u', b :: v' => op a b :: map2 op u' v'
  | _, _ => []
  end.

(** Fields over a grid with a handful of cells, one grid level. *)
#[export] Instance ListFields : FieldSpace := {|
  Scalar := list double;
  Flux := list double;
  BoundaryVector := list double;
  Scalar_imul_double := fun s c => map (fun a => PrimFloat.mul a c) s;
  Scalar_iadd_double := fun s c => map (fun a => PrimFloat.add a c) s;
  Scalar_imul := map2 PrimFloat.mul;
  Scalar_iadd := map2 PrimFloat.add;
  double_mul_Scalar := fun c s => map (fun a => PrimFloat.mul c a) s;
  Scalar_assign := fun s c => map (fun _ => c) s;
  Flux_assign := fun s c => map (fun _ => c) s;
  BoundaryVector_assign := fun s c => map (fun _ => c) s;
  Scalar_isub := map2 PrimFloat.sub;
  Flux_isub := map2 PrimFloat.sub;
  Scalar_Ngrid := fun _ => 1%Z;
  Flux_Ngrid := fun _ => 1%Z
|}.

(** *** For Euler.cc *)

(** One body; the object remembers whether it is stationary and the time it
    was last moved to.  Its boundary velocity at time t is t. *)
#[export] Instance OneBody : Core.GeometryClass := {|
  Core.Geometry := bool * double;
  Core.isStationary := fun g => fst g;
  Core.moveBodies := fun t g => (fst g, t);
  Core.getVelocities := fun g => [snd g]
|}.

(** A solver that returns its right-hand sides. *)
#[export] Instance EchoSolver : Core.TimeStepperBase := {|
  Core.createSolver := fun _ _ => {| Core.solve := fun a b _ _ => (a, b) |}
|}.

Definition model : Core.NavierStokesModel := {|
  Core.getLambda := [PrimFloat.opp 4%float; PrimFloat.opp 8%float];
  Core.S := fun x => x;
  Core.Sinv := fun x => x;
  Core.nonlinear := fun x => map (fun _ => d0) (Core.gamma x);
  Core.computeFlux := fun g _ => g
|}.

(** A state at time 1 and a stepper with h = 0.5. *)
Definition x_at_1 : Core.State :=
  Core.mkState [1%float; 2%float] [0%float; 0%float] [0%float] 1%float.

Definition stepper_half : Core.Euler := Core.Euler_new model 0.5%float.

Definition moving_world : Core.World := Core.mkWorld (false, 0%float) [].

(** A state at time 0 and a stepper with h = 1/10. *)
Definition x_at_0 : Core.State :=
  Core.mkState [1%float; 2%float] [0%float; 0%float] [0%float] 0%float.

Definition tenth : double := (1 / 10)%float.

Definition stepper_tenth : Core.Euler := Core.Euler_new model tenth.

Definition still_world : Core.World := Core.mkWorld (true, 0%float) [].

(** *** For ibpm.cc *)

Definition lower (c : ascii) : ascii :=
  let n := nat_of_ascii c in
  if (65 <=? n)%nat && (n <=? 90)%nat then ascii_of_nat (n + 32) else c.

Fixpoint lowercase (s : string) : string :=
  match s with
  | EmptyString => EmptyString
  | String c rest => String (lower c) (lowercase rest)
  end.

Definition file_exists (files : list string) (path : string) : bool :=
  existsb (String.eqb path) files.

(** The state a fresh [State(grid, n)] holds, and the contents of every state
    file that exists. *)
Definition fresh_state : Driver.State :=
  Driver.mkState [7%float; 7%float] [7%float; 7%float] [7%float] 0.

Definition stored_state : Driver.State :=
  Driver.mkState [1%float; 2%float] [3%float; 4%float] [5%float] 10.

(** A file system holding exactly [files].  Loading a file that is not there
    fails and leaves the object as it was.  [sprintf] is given for file names
    without a conversion. *)
Definition collaborators (files : list string) : Driver.Collaborators := {|
  Driver.MakeLowercase := lowercase;
  Driver.AddSlashToPath := fun s => (s ++ "/")%string;
  Driver.sprintf := fun fmt _ => fmt;
  Driver.Grid := Z * Z * Z;
  Driver.Grid_new := fun nx ny ngrid _ _ _ => (nx, ny, ngrid);
  Driver.setXShift := fun _ g => g;
  Driver.setYShift := fun _ g => g;
  Driver.Geometry := Z;
  Driver.Geometry_new := 0%Z;
  Driver.Geometry_load := fun path g =>
    if file_exists files path then (true, 1%Z) else (false, g);
  Driver.getNumPoints := fun g => g;
  Driver.Flux_UniformFlow := fun _ m _ => [m; m];
  Driver.State_new := fun _ _ => fresh_state;
  Driver.State_load := fun path x =>
    if file_exists files path then (true, stored_state) else (false, x);
  Driver.computeNetForce := fun _ => (d0, d0)
|}.

(** Steppers that only count the step. *)
Definition steppers (files : list string)
  : @Driver.TimeSteppers ListFields (collaborators files) := {|
  Driver.TimeStepper := string;
  Driver.new_Euler := fun _ _ _ => "Euler"%string;
  Driver.new_AdamsBashforth := fun _ _ _ => "AdamsBashforth"%string;
  Driver.new_RungeKutta2 := fun _ _ _ => "RungeKutta2"%string;
  Driver.new_RungeKutta3 := fun _ _ _ => "RungeKutta3"%string;
  Driver.TimeStepper_getName := fun s => s;
  Driver.TimeStepper_load := fun _ s => (false, s);
  Driver.TimeStepper_init := fun s => s;
  Driver.TimeStepper_advance := fun s x =>
    (s, Driver.mkState (Driver.omega x) (Driver.q x) (Driver.f x)
          (Driver.timestep x + 1))
|}.

(** The command line [ibpm -nsteps 3 -model .. -baseflow .. -pbaseflowname ..
    -ic .. -subbaseflow ..], every other parameter at its default. *)
Definition config (modelName baseFlow periodBaseFlowName icFile : string)
  (subtractBaseflow : bool) : Driver.Config := {|
  Driver.helpFlag := false;
  Driver.name := "ibpm";
  Driver.nx := 200;
  Driver.ny := 200;
  Driver.ngrid := 1;
  Driver.length := 4%float;
  Driver.xOffset := PrimFloat.opp 2%float;
  Driver.yOffset := PrimFloat.opp 2%float;
  Driver.xShift := 0%float;
  Driver.yShift := 0%float;
  Driver.geomFile := "ibpm.geom";
  Driver.Reynolds := 100%float;
  Driver.dt := (1 / 100)%float;
  Driver.modelName := modelName;
  Driver.baseFlow := baseFlow;
  Driver.integratorType := "rk2";
  Driver.icFile := icFile;
  Driver.outdir := ".";
  Driver.iTecplot := 100;
  Driver.iRestart := 100;
  Driver.iForce := 1;
  Driver.numSteps := 3;
  Driver.period := 1;
  Driver.periodStart := 0;
  Driver.periodBaseFlowName := periodBaseFlowName;
  Driver.subtractBaseflow := subtractBaseflow;
  Driver.numDigitInFileName := "%05d";
  Driver.inputIsValid := true
|}.

(** The objects main holds at line 216 in a run against [files] (a record
    of empty objects if the run ended before). *)
Definition setup_reached (files : list string) (cfg : Driver.Config)
  : @Driver.Setup ListFields (collaborators files) (steppers files) :=
  match fst (@Driver.startup ListFields (collaborators files)
               (steppers files) cfg []) with
  | Driver.Normal s => s
  | _ => @Driver.Build_Setup ListFields (collaborators files)
           (steppers files) Driver.INVALID ""%string (0, 0, 0)%Z 0%Z
           (@Driver.NonlinearNavierStokes ListFields (collaborators files)
              (0, 0, 0)%Z 0%Z d0 [])
           fresh_state ""%string
  end.

(** [main] run against the file system [files]. *)
Definition run_with (files : list string) (cfg : Driver.Config)
  : Driver.Result Z * list (@Driver.Event ListFields (collaborators files)) :=
  @Driver.run ListFields (collaborators files) (steppers files) cfg.

End Sample.

(** ** What can be read off a record of calls and off the console *)

Module CoreView.

Import Core.

Section View.

Context {F : FieldSpace} {G : GeometryClass} {B : TimeStepperBase}.

(** The times handed to [geom->moveBodies], in order. *)
Fixpoint moves (l : list Call) : list double :=
  match l with
  | [] => []
  | call_moveBodies t :: rest => t :: moves rest
  | _ :: rest => moves rest
  end.

(** The boundary vectors handed to [_solver->solve] as b, in order. *)
Fixpoint solve_bs (l : list Call) : list BoundaryVector :=
  match l with
  | [] => []
  | call_solve _ b :: rest => b :: solve_bs rest
  | _ :: rest => solve_bs rest
  end.

(** The value of [x.time] at the start of each of n steps in a row. *)
Fixpoint step_times (n : nat) (t h : double) : list double :=
  match n with
  | O => []
  | Datatypes.S k => t :: step_times k (t + h)%double h
  end.

End View.

End CoreView.

Module DriverView.

Import Driver.

Section View.

Context {F : FieldSpace} {E : Collaborators} {T : TimeSteppers}.

Local Open Scope string_scope.
Local Open Scope list_scope.

(** The numbers i of the lines "step i" on the console, in order. *)
Fixpoint step_numbers (log : list Event) : list Z :=
  match log with
  | [] => []
  | cout_int before i _ :: rest =>
      if before =? "step " then i :: step_numbers rest
      else step_numbers rest
  | _ :: rest => step_numbers rest
  end.

(** The states handed to [logger.doOutput], in order. *)
Fixpoint logged_states (log : list Event) : list State :=
  match log with
  | [] => []
  | logger_doOutput x :: rest => x :: logged_states rest
  | _ :: rest => logged_states rest
  end.

(** The outputs handed to [logger.addOutput] with their cadence, in order. *)
Fixpoint registered (log : list Event) : list (OutputKind * Z) :=
  match log with
  | [] => []
  | logger_addOutput o n :: rest => (o, n) :: registered rest
  | _ :: rest => registered rest
  end.

(** The outputs whose cadence on the command line is positive. *)
Definition wanted_outputs (cfg : Config) : list (OutputKind * Z) :=
  filter (fun on => (0 <? snd on)%Z)
    [(OutputTecplot, iTecplot cfg); (OutputRestart, iRestart cfg);
     (OutputForce, iForce cfg)].

(** i, i + 1, ..., n numbers in all. *)
Fixpoint count_from (i : Z) (n : nat) : list Z :=
  match n with
  | O => []
  | S k => i :: count_from (i + 1) k
  end.

(** Events that belong to lines 246-283 only: the logger, the steps. *)
Definition before_loop (e : Event) : bool :=
  match e with
  | cout_int before _ _ => negb (before =? "step ")
  | cout_force _ _ => false
  | logger_addOutput _ _ => false
  | logger_init => false
  | logger_doOutput _ => false
  | logger_cleanup => false
  | solver_advance _ => false
  | delete_solver => false
  | delete_model => false
  | _ => true
  end.

(** A part of main that only adds to the console, adds nothing that belongs
    to lines 246-283, and leaves the process, if at all, by [exit(1)] or
    [exit(-1)]. *)
Definition prelude {A : Type} (m : Prog A) : Prop :=
  forall log, exists added,
    snd (m log) = log ++ added
    /\ forallb before_loop added = true
    /\ forall c, fst (m log) = Exit c -> (c = 1 \/ c = -1)%Z.

(** The console of a run that stops at line 99. *)
Definition usage_console (cfg : Config) : list Event :=
  cout "Immersed Boundary Projection Method (IBPM), version IBPM_VERSION"
  :: (if ModelType_eqb (modelType_of cfg) INVALID
      then [cerr ("Unrecognized model: " ++ MakeLowercase (modelName cfg))]
      else [])
  ++ [parser_printUsage].

(** The console of a run that stops at line 160. *)
Definition no_geometry_console (cfg : Config) : list Event :=
  [ cout "Immersed Boundary Projection Method (IBPM), version IBPM_VERSION";
    mkdir (AddSlashToPath (outdir cfg));
    cout "Command:";
    parser_saveParameters (AddSlashToPath (outdir cfg) ++ name cfg ++ ".cmd");
    cout ("Run name: " ++ name cfg);
    cout "Grid parameters:";
    cout ("Reading geometry from file " ++ geomFile cfg) ].

(** The state [x] holds after lines 217-225. *)
Definition loaded (cfg : Config) (grid : Grid) (geom : Geometry) : State :=
  snd (State_load (icFile cfg) (zero_state grid geom)).

(** The two asserts of lines 229-230. *)
Definition same_Ngrid (x x00 : State) : bool :=
  (Flux_Ngrid (q x) =? Flux_Ngrid (q x00))%Z
  && (Scalar_Ngrid (omega x) =? Scalar_Ngrid (omega x00))%Z.

End View.

End DriverView.

(** ** More command lines *)

Module MoreSamples.

Import Sample.

(** [ibpm -model .. -baseflow .. -pbaseflowname .. -ic .. -subbaseflow ..
    -scheme .. -nsteps .. -period .. -periodstart .. -tecplot ..], with [-h]
    when [help] is set; every other parameter at its default. *)
Definition command_line (modelName baseFlow periodBaseFlowName icFile : string)
  (subtractBaseflow : bool) (scheme : string)
  (numSteps period periodStart iTecplot : Z) (help : bool)
  : Driver.Config := {|
  Driver.helpFlag := help;
  Driver.name := "ibpm";
  Driver.nx := 200;
  Driver.ny := 200;
  Driver.ngrid := 1;
  Driver.length := 4%float;
  Driver.xOffset := PrimFloat.opp 2%float;
  Driver.yOffset := PrimFloat.opp 2%float;
  Driver.xShift := 0%float;
  Driver.yShift := 0%float;
  Driver.geomFile := "ibpm.geom";
  Driver.Reynolds := 100%float;
  Driver.dt := (1 / 100)%float;
  Driver.modelName := modelName;
  Driver.baseFlow := baseFlow;
  Driver.integratorType := scheme;
  Driver.icFile := icFile;
  Driver.outdir := ".";
  Driver.iTecplot := iTecplot;
  Driver.iRestart := 100;
  Driver.iForce := 1;
  Driver.numSteps := numSteps;
  Driver.period := period;
  Driver.periodStart := periodStart;
  Driver.periodBaseFlowName := periodBaseFlowName;
  Driver.subtractBaseflow := subtractBaseflow;
  Driver.numDigitInFileName := "%05d";
  Driver.inputIsValid := true
|}.

(** [sprintf(buf, fmt, n)] for a pattern with one conversion, "%05d": it is
    replaced by n in decimal, padded with zeros to five places (a minus sign
    counts as a place). *)
Definition digit (n : Z) : ascii :=
  ascii_of_nat (48 + Z.to_nat (n mod 10)).

Fixpoint digits (fuel : nat) (n : Z) (acc : string) : string :=
  match fuel with
  | O => acc
  | S fuel =>
      let acc := String (digit n) acc in
      if (n / 10 =? 0)%Z then acc else digits fuel (n / 10) acc
  end.

Fixpoint zeros (k : nat) (s : string) : string :=
  match k with
  | O => s
  | S k => zeros k (String "0" s)
  end.

Definition pad (width : nat) (s : string) : string :=
  zeros (width - String.length s) s.

Definition percent_05d (n : Z) : string :=
  if (n <? 0)%Z then String "-" (pad 4 (digits 20 (- n) ""))
  else pad 5 (digits 20 n "").

Fixpoint sprintf_05d (fmt : string) (n : Z) : string :=
  match fmt with
  | String "%" (String "0" (String "5" (String "d" rest))) =>
      (percent_05d n ++ rest)%string
  | String c rest => String c (sprintf_05d rest n)
  | EmptyString => EmptyString
  end.

(** The file system of [Sample.collaborators] with this [sprintf]. *)
Definition numbered_collaborators (files : list string)
  : @Driver.Collaborators Sample.ListFields := {|
  Driver.MakeLowercase := Sample.lowercase;
  Driver.AddSlashToPath := fun s => (s ++ "/")%string;
  Driver.sprintf := sprintf_05d;
  Driver.Grid := Z * Z * Z;
  Driver.Grid_new := fun nx ny ngrid _ _ _ => (nx, ny, ngrid);
  Driver.setXShift := fun _ g => g;
  Driver.setYShift := fun _ g => g;
  Driver.Geometry := Z;
  Driver.Geometry_new := 0%Z;
  Driver.Geometry_load := fun path g =>
    if Sample.file_exists files path then (true, 1%Z) else (false, g);
  Driver.getNumPoints := fun g => g;
  Driver.Flux_UniformFlow := fun _ m _ => [m; m];
  Driver.State_new := fun _ _ => Sample.fresh_state;
  Driver.State_load := fun path x =>
    if Sample.file_exists files path then (true, Sample.stored_state)
    else (false, x);
  Driver.computeNetForce := fun _ => (d0, d0)
|}.

End MoreSamples.

(** * Euler.cc: what one call of advance does *)

Module EulerFacts.

Import Core.

Section Facts.

Context {F : FieldSpace} {G : GeometryClass} {B : TimeStepperBase}.

Lemma advance_unfold (this : Euler) (x : State) (w : World) :
  advance this x w =
  (state_after_advance this x (geometry w),
   mkWorld (geometry_in_step x (geometry w))
           (calls w ++ calls_of_advance this x (geometry w))).
Proof.
  destruct w as [g cs].
  unfold advance, state_after_advance, calls_of_advance, geometry_in_step,
    rhs_a, geom_isStationary, geom_moveBodies, geom_getVelocities, model_S,
    model_Sinv, model_nonlinear, model_computeFlux, solver_solve, bind, record,
    ret.
  cbn [geometry calls fst snd].
  destruct (isStationary g); cbn [negb geometry calls];
    repeat rewrite <- app_assoc; reflexivity.
Qed.

Lemma count_solve_app (l1 l2 : list Call) :
  count_solve (l1 ++ l2) = count_solve l1 + count_solve l2.
Proof.
  induction l1 as [|c l1 IH]; [reflexivity|].
  destruct c; cbn [app count_solve]; rewrite IH; reflexivity.
Qed.


Lemma count_solve_advance (this : Euler) (x : State) (g : Geometry) :
  count_solve (calls_of_advance this x g) = 1.
Proof.
  unfold calls_of_advance. destruct (isStationary g); reflexivity.
Qed.




Lemma advance_n_time (this : Euler) (n : nat) :
  forall (x : State) (w : World),
    time (fst (advance_n this n x w))
    = add_n_times n (time x) (_timestep this).
Proof.
  induction n as [|n IH]; intros x w; [reflexivity|].
  cbn [advance_n add_n_times]. unfold bind. rewrite advance_unfold.
  rewrite IH. reflexivity.
Qed.

Lemma advance_n_stationary (this : Euler) (n : nat) :
  forall (x : State) (w : World),
    isStationary (geometry w) = true ->
    geometry (snd (advance_n this n x w)) = geometry w.
Proof.
  induction n as [|n IH]; intros x w Hst; [reflexivity|].
  cbn [advance_n]. unfold bind. rewrite advance_unfold.
  rewrite IH; cbn [geometry]; unfold geometry_in_step; rewrite Hst;
    [reflexivity | exact Hst].
Qed.

End Facts.

End EulerFacts.

(** * Euler.cc: the claims *)

Module EulerClaims.

Import Core EulerFacts.

Section Claims.

Context {F : FieldSpace} {G : GeometryClass} {B : TimeStepperBase}.

(** C3, as the code has it: [advance] leaves the Geometry object alone exactly
    when the geometry reports that it is stationary; otherwise [advance]
    itself moves the bodies, by one call [moveBodies(x.time)] made right after
    the test.  Over any number of steps a stationary geometry stays as it
    was. *)
Theorem C3_advance_moves_nonstationary_bodies
  (this : Euler) (x : State) (w : World) (n : nat) :
  geometry (snd (advance this x w))
  = (if isStationary (geometry w) then geometry w
     else moveBodies (time x) (geometry w))
  /\ (exists rest,
        calls (snd (advance this x w))
        = calls w ++ call_isStationary
            :: (if isStationary (geometry w) then []
                else [call_moveBodies (time x)]) ++ rest
        /\ forall t, ~ In (call_moveBodies t) rest)
  /\ (if isStationary (geometry w)
      then geometry (snd (advance_n this n x w)) = geometry w
      else True).
Proof.
  rewrite advance_unfold. cbn [snd geometry calls].
  split; [reflexivity|]. split.
  - eexists. split; [unfold calls_of_advance; reflexivity|].
    cbn. intros t [H|[H|[H|[H|[H|[H|[]]]]]]]; discriminate H.
  - destruct (isStationary (geometry w)) eqn:Hst; [|exact I].
    apply advance_n_stationary. exact Hst.
Qed.

(** C4: one call of [Euler::advance] builds
    a = Sinv(S(gamma) * eig) + h * nonlinear(x) and b = the boundary
    velocities, calls [solve] exactly once, which gives the new gamma and f,
    then calls [computeFlux] on the new gamma, and leaves time + h in
    [x.time]. *)
Theorem C4_advance_is_one_projection_step
  (this : Euler) (x : State) (w : World) :
  let m := _model this in
  let a := Scalar_iadd
             (Sinv m (Scalar_imul (S m (gamma x))
                                  (_linearTermEigenvalues this)))
             (double_mul_Scalar (_timestep this) (nonlinear m x)) in
  let b := getVelocities (geometry_in_step x (geometry w)) in
  let gf := solve (_solver this) a b (gamma x) (f x) in
  fst (advance this x w)
  = {| gamma := fst gf;
       q := computeFlux m (fst gf) (q x);
       f := snd gf;
       time := (time x + _timestep this)%double |}
  /\ count_solve (calls (snd (advance this x w)))
     = Datatypes.S (count_solve (calls w))
  /\ exists before,
       calls (snd (advance this x w))
       = calls w ++ before
           ++ [call_nonlinear x; call_getVelocities; call_solve a b;
               call_computeFlux (fst gf)]
       /\ count_solve before = 0.
Proof.
  rewrite advance_unfold. cbn [fst snd geometry calls].
  split; [reflexivity|]. split.
  - rewrite count_solve_app, count_solve_advance. lia.
  - unfold calls_of_advance, rhs_a.
    destruct (isStationary (geometry w)).
    + exists [call_isStationary; call_S (gamma x);
              call_Sinv (Scalar_imul (S (_model this) (gamma x))
                                     (_linearTermEigenvalues this))].
      split; reflexivity.
    + exists [call_isStationary; call_moveBodies (time x); call_S (gamma x);
              call_Sinv (Scalar_imul (S (_model this) (gamma x))
                                     (_linearTermEigenvalues this))].
      split; reflexivity.
Qed.


(** C6, as the code has it: one call of [advance] puts the double sum
    x.time + h into [x.time], after the model and the solver were called with
    the old time; n calls in a row leave t0 + h + ... + h, the n additions
    done one after the other in double arithmetic. *)
Theorem C6_time_is_added_h_per_call
  (this : Euler) (x : State) (w : World) (n : nat) :
  time (fst (advance this x w)) = (time x + _timestep this)%double
  /\ In (call_nonlinear x) (calls (snd (advance this x w)))
  /\ time (fst (advance_n this n x w))
     = add_n_times n (time x) (_timestep this).
Proof.
  rewrite advance_unfold. cbn [fst snd calls].
  split; [reflexivity|]. split; [|apply advance_n_time].
  apply in_or_app. right. unfold calls_of_advance.
  destruct (isStationary (geometry w)); cbn; tauto.
Qed.

(** C7: after a call of [advance], [x.q] is what [computeFlux] wrote for the
    [x.gamma] the call leaves: the last two calls made are [solve], whose
    result is that gamma, and then [computeFlux] on it. *)
Theorem C7_flux_follows_gamma (this : Euler) (x : State) (w : World) :
  let x' := fst (advance this x w) in
  q x' = computeFlux (_model this) (gamma x') (q x)
  /\ exists before a b,
       calls (snd (advance this x w))
       = calls w ++ before ++ [call_solve a b; call_computeFlux (gamma x')]
       /\ gamma x' = fst (solve (_solver this) a b (gamma x) (f x)).
Proof.
  rewrite advance_unfold. cbn [fst snd calls]. unfold state_after_advance.
  cbn [q gamma]. split; [reflexivity|].
  unfold calls_of_advance.
  destruct (isStationary (geometry w)); eexists; exists (rhs_a this x);
    eexists; (split; [|reflexivity]).
  - instantiate (1 := [_; _; _; _; _]). reflexivity.
  - instantiate (1 := [_; _; _; _; _; _]). reflexivity.
Qed.

End Claims.

Import Sample.

Lemma double_neq (a b : double) :
  Prim2SF a <> Prim2SF b -> a <> b.
Proof. intros H E. apply H. rewrite E. reflexivity. Qed.

(** C1, evaluated: a stepper with h = 0.5 advances a state at time 1 over a
    moving body.  The bodies are moved to time 1, the time at the start of the
    step, not to 1.5, and the boundary velocity handed to [solve] is the one
    at time 1. *)
Theorem C1_bodies_moved_to_time_at_start_of_step :
  isStationary (geometry moving_world) = false
  /\ time x_at_1 = 1%float
  /\ (time x_at_1 + _timestep stepper_half)%double = 1.5%float
  /\ calls (snd (advance stepper_half x_at_1 moving_world))
     = [call_isStationary;
        call_moveBodies 1%float;
        call_S [1%float; 2%float];
        call_Sinv [0%float; PrimFloat.opp 2%float];
        call_nonlinear x_at_1;
        call_getVelocities;
        call_solve [0%float; PrimFloat.opp 2%float] [1%float];
        call_computeFlux [0%float; PrimFloat.opp 2%float]]
  /\ geometry (snd (advance stepper_half x_at_1 moving_world))
     = (false, 1%float)
  /\ getVelocities (moveBodies 1.5%float (geometry moving_world))
     = [1.5%float].
Proof. repeat split. Qed.

(** C3 fails as stated: over a moving body, one call of [advance] leaves the
    Geometry object in another place than it found it. *)
Lemma C3_advance_repositions_bodies :
  isStationary (geometry moving_world) = false
  /\ geometry (snd (advance stepper_half x_at_1 moving_world))
     <> geometry moving_world.
Proof.
  split; [reflexivity|].
  intro H. apply (f_equal snd) in H. vm_compute in H.
  revert H. apply double_neq. vm_compute. discriminate.
Qed.

(** C6 fails as stated: ten steps of h = 1/10 from time 0 leave
    0.99999999999999989 in [x.time], and 0 + 10 * h is 1 in double
    arithmetic.  Read as exact numbers the two differ as well: [x.time] is
    9007199254740991 * 2^-53 and h is 7205759403792794 * 2^-56. *)
Lemma C6_ten_steps_of_a_tenth :
  time x_at_0 = 0%float
  /\ _timestep stepper_tenth = (1 / 10)%float
  /\ time (fst (advance_n stepper_tenth 10 x_at_0 still_world))
     = 0x1.fffffffffffffp-1%float
  /\ (time x_at_0 + 10 * _timestep stepper_tenth)%double = 1%float
  /\ time (fst (advance_n stepper_tenth 10 x_at_0 still_world))
     <> (time x_at_0 + 10 * _timestep stepper_tenth)%double
  /\ Prim2SF (time (fst (advance_n stepper_tenth 10 x_at_0 still_world)))
     = S754_finite false 9007199254740991 (-53)
  /\ Prim2SF (_timestep stepper_tenth)
     = S754_finite false 7205759403792794 (-56)
  /\ (9007199254740991 * 2 ^ 3 <> 10 * 7205759403792794)%Z.
Proof.
  split; [reflexivity|]. split; [reflexivity|]. split; [reflexivity|].
  split; [reflexivity|].
  split; [apply double_neq; vm_compute; discriminate|].
  split; [reflexivity|]. split; [reflexivity|].
  vm_compute. discriminate.
Qed.

End EulerClaims.

(** * ibpm.cc: the stages of main *)

Module DriverFacts.

Import Driver.

Section Facts.

Context {F : FieldSpace} {E : Collaborators} {T : TimeSteppers}.

Local Open Scope string_scope.
Local Open Scope list_scope.

Lemma advanced_states_app (l1 l2 : list Event) :
  advanced_states (l1 ++ l2) = advanced_states l1 ++ advanced_states l2.
Proof.
  induction l1 as [|e l1 IH]; [reflexivity|].
  destruct e; cbn [app advanced_states]; rewrite IH; reflexivity.
Qed.

Lemma count_advance_length (log : list Event) :
  count_advance log = List.length (advanced_states log).
Proof.
  induction log as [|e log IH]; [reflexivity|].
  destruct e; cbn [count_advance advanced_states List.length]; rewrite IH;
    reflexivity.
Qed.

Lemma trajectory_length (todo : nat) :
  forall solver x, List.length (trajectory todo solver x) = todo.
Proof.
  induction todo as [|todo IH]; intros solver x; [reflexivity|].
  cbn [trajectory List.length]. rewrite IH. reflexivity.
Qed.

(** ** Parts of main that never reach the stepper *)

Lemma quiet_ret {A : Type} (a : A) : quiet (ret a).
Proof. intro log. exists []. rewrite app_nil_r. split; reflexivity. Qed.

Lemma quiet_exit {A : Type} (c : Z) : quiet (@exit F E A c).
Proof. intro log. exists []. rewrite app_nil_r. split; reflexivity. Qed.

Lemma quiet_abort {A : Type} :
  quiet (fun log : list Event => (@Abort A, log)).
Proof. intro log. exists []. rewrite app_nil_r. split; reflexivity. Qed.

Lemma quiet_assert (b : bool) : quiet (assert b).
Proof.
  intro log. exists []. rewrite app_nil_r. unfold assert.
  destruct b; split; reflexivity.
Qed.

Lemma quiet_emit (e : Event) : advanced_states [e] = [] -> quiet (emit e).
Proof. intros H log. exists [e]. split; [reflexivity | exact H]. Qed.

Lemma quiet_bind {A C : Type} (m : Prog A) (k : A -> Prog C) :
  quiet m -> (forall a, quiet (k a)) -> quiet (bind m k).
Proof.
  intros Hm Hk log. unfold bind.
  destruct (Hm log) as (added & Hs & Ha).
  destruct (m log) as [[a| c |] log']; cbn [snd] in Hs; subst log'.
  - destruct (Hk a (log ++ added)) as (added' & Hs' & Ha').
    exists (added ++ added'). rewrite Hs', app_assoc, advanced_states_app, Ha, Ha'.
    split; reflexivity.
  - exists added. split; [reflexivity | exact Ha].
  - exists added. split; [reflexivity | exact Ha].
Qed.

Lemma quiet_states {A : Type} (m : Prog A) (log : list Event) :
  quiet m -> advanced_states (snd (m log)) = advanced_states log.
Proof.
  intros H. destruct (H log) as (added & Hs & Ha).
  rewrite Hs, advanced_states_app, Ha, app_nil_r. reflexivity.
Qed.

Ltac quiet_step :=
  first
    [ apply quiet_ret
    | apply quiet_exit
    | apply quiet_abort
    | apply quiet_assert
    | apply quiet_emit; reflexivity
    | apply quiet_bind; [|intros]
    | match goal with
      | |- quiet (if ?b then _ else _) => destruct b
      | |- quiet (let (_, _) := ?p in _) => destruct p
      | |- quiet (match ?m with _ => _ end) => destruct m
      end ].

Ltac quiet_tac := repeat quiet_step.

Lemma quiet_str2model (s : string) : quiet (str2model s).
Proof. unfold str2model. quiet_tac. Qed.

Lemma quiet_GetSolver grid model dt s : quiet (GetSolver grid model dt s).
Proof. unfold GetSolver. quiet_tac. Qed.

Lemma quiet_check_parameters cfg mt : quiet (check_parameters cfg mt).
Proof. unfold check_parameters. quiet_tac. Qed.

Lemma quiet_check_baseflow_options cfg mt :
  quiet (check_baseflow_options cfg mt).
Proof. unfold check_baseflow_options. quiet_tac. Qed.

Lemma quiet_setup_grid cfg : quiet (setup_grid cfg).
Proof. unfold setup_grid. quiet_tac. Qed.

Lemma quiet_setup_geometry cfg : quiet (setup_geometry cfg).
Proof. unfold setup_geometry. quiet_tac. Qed.

Lemma quiet_load_periodic pbf start (x0 : list State) :
  forall i, quiet (load_periodic pbf start i x0).
Proof.
  induction x0 as [|xi rest IH]; intro i; cbn [load_periodic].
  - apply quiet_ret.
  - apply quiet_bind; [apply quiet_emit; reflexivity | intros _].
    apply quiet_bind; [apply IH | intros; apply quiet_ret].
Qed.

Lemma quiet_setup_model cfg mt grid geom :
  quiet (setup_model cfg mt grid geom).
Proof.
  unfold setup_model.
  do 2 (apply quiet_bind; [apply quiet_emit; reflexivity | intros _]).
  apply quiet_bind; [|intros; quiet_tac].
  destruct mt; quiet_tac. apply quiet_load_periodic.
Qed.

Lemma quiet_setup_timestepper cfg outdir grid model :
  quiet (setup_timestepper cfg outdir grid model).
Proof.
  unfold setup_timestepper.
  apply quiet_bind; [apply quiet_GetSolver | intros]. quiet_tac.
Qed.

Lemma quiet_startup cfg : quiet (startup cfg).
Proof.
  unfold startup.
  apply quiet_bind; [apply quiet_emit; reflexivity | intros _].
  apply quiet_bind; [apply quiet_str2model | intros mt].
  apply quiet_bind; [apply quiet_check_parameters | intros _].
  apply quiet_bind; [apply quiet_check_baseflow_options | intros _].
  apply quiet_bind; [apply quiet_setup_grid | intros og].
  apply quiet_bind; [apply quiet_setup_geometry | intros geom].
  apply quiet_bind; [apply quiet_setup_model | intros mx].
  apply quiet_bind; [apply quiet_setup_timestepper | intros solver].
  apply quiet_ret.
Qed.

Lemma quiet_initial_condition cfg mt grid geom x00 :
  quiet (initial_condition cfg mt grid geom x00).
Proof. unfold initial_condition. quiet_tac. Qed.

Lemma quiet_setup_logger cfg x : quiet (setup_logger cfg x).
Proof. unfold setup_logger. quiet_tac. Qed.

(** ** Stages that go on *)

Lemma bind_normal {A C : Type} (m : Prog A) (k : A -> Prog C) log a log' :
  m log = (Normal a, log') -> bind m k log = k a log'.
Proof. intros H. unfold bind. rewrite H. reflexivity. Qed.

Lemma bind_exit {A C : Type} (m : Prog A) (k : A -> Prog C) log c log' :
  m log = (Exit c, log') -> bind m k log = (Exit c, log').
Proof. intros H. unfold bind. rewrite H. reflexivity. Qed.

Lemma str2model_result (cfg : Config) (log : list Event) :
  fst (str2model (modelName cfg) log) = Normal (modelType_of cfg)
  /\ (modelType_of cfg <> INVALID ->
      snd (str2model (modelName cfg) log) = log).
Proof.
  unfold modelType_of, str2model.
  destruct (MakeLowercase (modelName cfg) =? "nonlinear");
    [split; reflexivity|].
  destruct (MakeLowercase (modelName cfg) =? "linear");
    [split; reflexivity|].
  destruct (MakeLowercase (modelName cfg) =? "adjoint");
    [split; reflexivity|].
  destruct (MakeLowercase (modelName cfg) =? "linearperiodic");
    [split; reflexivity|].
  split; [reflexivity|]. cbn. intro H. contradiction H. reflexivity.
Qed.

Lemma str2model_valid (cfg : Config) (log : list Event) :
  modelType_of cfg <> INVALID ->
  str2model (modelName cfg) log = (Normal (modelType_of cfg), log).
Proof.
  intros H. destruct (str2model_result cfg log) as [H1 H2].
  specialize (H2 H). destruct (str2model (modelName cfg) log) as [r l].
  cbn in H1, H2. subst. reflexivity.
Qed.

Lemma check_parameters_pass cfg mt log :
  inputIsValid cfg = true -> helpFlag cfg = false -> mt <> INVALID ->
  check_parameters cfg mt log = (Normal tt, log).
Proof.
  intros Hv Hh Hm. unfold check_parameters. rewrite Hv, Hh.
  destruct mt; try reflexivity. contradiction Hm. reflexivity.
Qed.

Lemma check_parameters_stop cfg mt log :
  negb (inputIsValid cfg) || helpFlag cfg = true ->
  check_parameters cfg mt log = (Exit 1, log ++ [parser_printUsage]).
Proof.
  intros H. unfold check_parameters.
  destruct (inputIsValid cfg); destruct (helpFlag cfg); try discriminate H;
    cbn; rewrite ?orb_true_r; reflexivity.
Qed.

Lemma setup_grid_result cfg log :
  exists og log', setup_grid cfg log = (Normal og, log').
Proof. unfold setup_grid. cbn. do 2 eexists. reflexivity. Qed.

Lemma setup_geometry_loaded cfg log :
  fst (Geometry_load (geomFile cfg) Geometry_new) = true ->
  exists geom log', setup_geometry cfg log = (Normal geom, log').
Proof.
  intros H. unfold setup_geometry.
  destruct (Geometry_load (geomFile cfg) Geometry_new) as [ok geom].
  cbn in H. subst ok. cbn. do 2 eexists. reflexivity.
Qed.

Lemma load_periodic_result pbf start (x0 : list State) :
  forall i log, exists l log',
    load_periodic pbf start i x0 log = (Normal l, log')
    /\ List.length l = List.length x0.
Proof.
  induction x0 as [|xi rest IH]; intros i log; cbn [load_periodic].
  - exists [], log. split; reflexivity.
  - unfold bind at 1. cbn [emit].
    destruct (IH (i + 1)%Z (log ++ [cout_int "loading the " i "-th periodic baseflow:"]))
      as (l & log' & Hl & Hlen).
    rewrite (bind_normal _ _ _ Hl). cbn [ret List.length].
    do 2 eexists. split; [reflexivity|]. cbn [List.length]. rewrite Hlen.
    reflexivity.
Qed.

(** The model set-up goes on whatever the loads of the base-flow files
    return; for the two steady variants the model is built on the state as
    [x00.load] left it. *)
Lemma setup_model_result cfg mt grid geom log :
  mt <> INVALID ->
  (mt = LINEARPERIODIC -> (1 <= period cfg)%Z) ->
  exists mx log',
    setup_model cfg mt grid geom log = (Normal mx, log')
    /\ (mt = LINEAR ->
        mx = (let x00 := snd (State_load (baseFlow cfg)
                                (State_new grid (getNumPoints geom))) in
              (LinearizedNavierStokes grid geom (Reynolds cfg) x00, x00)))
    /\ (mt = ADJOINT ->
        mx = (let x00 := snd (State_load (baseFlow cfg)
                                (State_new grid (getNumPoints geom))) in
              (AdjointNavierStokes grid geom (Reynolds cfg) x00, x00))).
Proof.
  intros Hm Hp. unfold setup_model.
  destruct mt; try (contradiction Hm; reflexivity).
  - cbn. do 2 eexists. split; [reflexivity|].
    split; [reflexivity | discriminate].
  - cbn. do 2 eexists. split; [reflexivity|].
    split; discriminate.
  - cbn. do 2 eexists. split; [reflexivity|].
    split; [discriminate | reflexivity].
  - specialize (Hp eq_refl).
    replace (period cfg <? 1)%Z with false
      by (symmetry; apply Z.ltb_ge; exact Hp).
    unfold bind at 1. cbn [emit]. unfold bind at 1. cbn [emit].
    unfold bind at 1. unfold bind at 1.
    match goal with
    | |- context [load_periodic ?a ?b ?c ?d ?e] =>
        destruct (load_periodic_result a b d c e) as (l & log' & Hl & _)
    end.
    rewrite Hl. cbn. do 2 eexists. split; [reflexivity|].
    split; discriminate.
Qed.

Lemma GetSolver_known grid model dt s log :
  known_scheme s = true ->
  exists solver, GetSolver grid model dt s log = (Normal solver, log).
Proof.
  unfold known_scheme, GetSolver. intros H.
  destruct (MakeLowercase s =? "euler"); [eexists; reflexivity|].
  destruct (MakeLowercase s =? "ab2"); [eexists; reflexivity|].
  destruct (MakeLowercase s =? "rk2"); [eexists; reflexivity|].
  destruct (MakeLowercase s =? "rk3"); [eexists; reflexivity|].
  discriminate H.
Qed.

Lemma setup_timestepper_known cfg outdir grid model log :
  known_scheme (integratorType cfg) = true ->
  exists solver log',
    setup_timestepper cfg outdir grid model log = (Normal solver, log').
Proof.
  intros H. unfold setup_timestepper.
  destruct (GetSolver_known grid model (dt cfg) (integratorType cfg) log H)
    as (solver & Hs).
  rewrite (bind_normal _ _ _ Hs). cbn.
  destruct (TimeStepper_load (outdir ++ name cfg)%string solver) as [ok s'].
  destruct ok; cbn; do 2 eexists; reflexivity.
Qed.

(** ** The loop *)

Lemma setup_logger_result cfg x log :
  exists added,
    setup_logger cfg x log = (Normal tt, log ++ added)
    /\ advanced_states added = []
    /\ In (logger_doOutput x) added.
Proof.
  unfold setup_logger.
  destruct (iTecplot cfg >? 0)%Z; destruct (iRestart cfg >? 0)%Z;
    destruct (iForce cfg >? 0)%Z; cbn; unfold emit;
    repeat (rewrite <- app_assoc; cbn [app]);
    eexists; (split; [reflexivity|]); (split; [reflexivity|]);
    cbn; tauto.
Qed.

Lemma integrate_result (todo : nat) :
  forall i solver x log, exists sx added,
    integrate todo i solver x log = (Normal sx, log ++ added)
    /\ advanced_states added = trajectory todo solver x.
Proof.
  induction todo as [|todo IH]; intros i solver x log.
  - exists (solver, x), []. rewrite app_nil_r. split; reflexivity.
  - cbn [integrate trajectory].
    destruct (TimeStepper_advance solver x) as [solver' x'] eqn:Hadv.
    destruct (computeNetForce x') as [drag lift].
    unfold bind at 1. cbn [emit]. unfold bind at 1. cbn [emit].
    unfold bind at 1. cbn [emit]. unfold bind at 1. cbn [emit].
    cbn [fst snd].
    match goal with
    | |- context [integrate todo ?j solver' x' ?l] =>
        destruct (IH j solver' x' l) as (sx & added & Hi & Ha)
    end.
    rewrite Hi. repeat rewrite <- app_assoc. cbn [app].
    do 2 eexists. split; [reflexivity|].
    cbn [advanced_states]. rewrite Ha. reflexivity.
Qed.

Lemma time_loop_result cfg solver x log :
  exists added,
    time_loop cfg solver x log = (Normal 0%Z, log ++ added)
    /\ advanced_states added
       = trajectory (Z.to_nat (numSteps cfg)) solver x
    /\ In (logger_doOutput x) added.
Proof.
  unfold time_loop.
  destruct (setup_logger_result cfg x log) as (a1 & H1 & Ha1 & Hin).
  rewrite (bind_normal _ _ _ H1).
  destruct (integrate_result (Z.to_nat (numSteps cfg)) 1 solver x (log ++ a1))
    as (sx & a2 & H2 & Ha2).
  rewrite (bind_normal _ _ _ H2). cbn.
  exists (a1 ++ a2 ++ [logger_cleanup; delete_solver; delete_model]).
  unfold emit. repeat (rewrite <- app_assoc; cbn [app]).
  split; [reflexivity|].
  split.
  - rewrite !advanced_states_app, Ha1, Ha2. cbn. rewrite app_nil_r.
    reflexivity.
  - apply in_or_app. left. exact Hin.
Qed.

(** ** The checks of lines 104-125 *)

Lemma check_baseflow_options_pass cfg mt log :
  baseflow_options_fit cfg mt ->
  check_baseflow_options cfg mt log = (Normal tt, log).
Proof.
  unfold baseflow_options_fit, check_baseflow_options.
  destruct mt; cbn; try reflexivity; try contradiction;
    intros [H1 H2]; apply String.eqb_neq in H1; apply String.eqb_eq in H2;
    rewrite H1, H2; reflexivity.
Qed.

Lemma check_baseflow_options_reject cfg mt log :
  ((mt = LINEAR \/ mt = ADJOINT)
   /\ (baseFlow cfg = "" \/ periodBaseFlowName cfg <> ""))
  \/ (mt = LINEARPERIODIC
      /\ (periodBaseFlowName cfg = "" \/ baseFlow cfg <> "")) ->
  exists msg,
    In msg baseflow_diagnostics
    /\ check_baseflow_options cfg mt log = (Exit 1, log ++ [cout msg]).
Proof.
  unfold check_baseflow_options, baseflow_diagnostics.
  destruct (String.eqb_spec (baseFlow cfg) "") as [Hb|Hb];
    destruct (String.eqb_spec (periodBaseFlowName cfg) "") as [Hp|Hp];
    intros [[[Hm|Hm] [H|H]] | [Hm [H|H]]]; subst mt;
    try contradiction; cbn;
    eexists; (split; [|reflexivity]); cbn; tauto.
Qed.

(** ** From the command line to line 216 *)

Lemma startup_result (cfg : Config) :
  inputIsValid cfg = true ->
  helpFlag cfg = false ->
  baseflow_options_fit cfg (modelType_of cfg) ->
  (modelType_of cfg = LINEARPERIODIC -> (1 <= period cfg)%Z) ->
  fst (Geometry_load (geomFile cfg) Geometry_new) = true ->
  known_scheme (integratorType cfg) = true ->
  exists s log0,
    startup cfg [] = (Normal s, log0)
    /\ setup_modelType s = modelType_of cfg
    /\ advanced_states log0 = [].
Proof.
  intros Hv Hh Hfit Hper Hgeo Hsch.
  assert (Hm : modelType_of cfg <> INVALID).
  { intro H. rewrite H in Hfit. exact Hfit. }
  assert (Hq := quiet_states [] (quiet_startup cfg)).
  remember (startup cfg []) as r eqn:Hr.
  unfold startup in Hr. unfold bind at 1 in Hr. cbn [emit] in Hr.
  rewrite (bind_normal _ _ _ (str2model_valid cfg _ Hm)) in Hr.
  rewrite (bind_normal _ _ _ (check_parameters_pass cfg _ Hv Hh Hm)) in Hr.
  rewrite (bind_normal _ _ _ (check_baseflow_options_pass cfg _ _ Hfit))
    in Hr.
  match type of Hr with
  | context [bind (setup_grid cfg) _ ?l] =>
      destruct (setup_grid_result cfg l) as (og & l1 & H1)
  end.
  rewrite (bind_normal _ _ _ H1) in Hr.
  destruct (setup_geometry_loaded cfg l1 Hgeo) as (geom & l2 & H2).
  rewrite (bind_normal _ _ _ H2) in Hr.
  destruct (setup_model_result cfg (snd og) geom l2 Hm Hper)
    as (mx & l3 & H3 & _).
  rewrite (bind_normal _ _ _ H3) in Hr.
  destruct (setup_timestepper_known cfg (fst og) (snd og) (fst mx) l3 Hsch)
    as (solver & l4 & H4).
  rewrite (bind_normal _ _ _ H4) in Hr.
  cbn [ret] in Hr. subst r. cbn [snd advanced_states] in Hq.
  do 2 eexists. split; [reflexivity|]. split; [reflexivity | exact Hq].
Qed.

(** ** The initial condition, lines 216-244 *)

Lemma initial_condition_plain cfg mt grid geom x00 log :
  subtractBaseflow cfg && negb (icFile cfg =? "") = false ->
  exists added,
    initial_condition cfg mt grid geom x00 log
    = (Normal (loaded_or_zero cfg grid geom), log ++ added)
    /\ advanced_states added = []
    /\ (icFile cfg <> "" ->
        fst (State_load (icFile cfg) (zero_state grid geom)) = false ->
        In (cout "  (failed: using zero initial condition)") added).
Proof.
  intros Hsub. unfold initial_condition, loaded_or_zero.
  destruct (String.eqb_spec (icFile cfg) "") as [Hic|Hic]; cbn [negb].
  - cbn. unfold emit. repeat (rewrite <- app_assoc; cbn [app]).
    eexists. split; [reflexivity|]. split; [reflexivity|].
    intros H. contradiction.
  - cbn [negb] in Hsub. rewrite andb_true_r in Hsub. rewrite Hsub.
    destruct (State_load (icFile cfg) (zero_state grid geom)) as [ok x].
    destruct ok; cbn; unfold emit; repeat (rewrite <- app_assoc; cbn [app]);
      eexists; (split; [reflexivity|]); (split; [reflexivity|]);
      intros _ H; [discriminate H | cbn; tauto].
Qed.

Lemma initial_condition_nonlinear_flag cfg grid geom x00 log :
  subtractBaseflow cfg = true ->
  icFile cfg <> "" ->
  exists added,
    initial_condition cfg NONLINEAR grid geom x00 log
    = (Exit 1,
       log ++ added
           ++ [cout "Flag subbaseflow should be true only for linear cases"])
    /\ advanced_states added = [].
Proof.
  intros Hsub Hic. unfold initial_condition. rewrite Hsub.
  apply String.eqb_neq in Hic. rewrite Hic. cbn [negb].
  destruct (State_load (icFile cfg) (zero_state grid geom)) as [ok x].
  destruct ok; cbn; unfold emit; repeat (rewrite <- app_assoc; cbn [app]).
  - exists [cout ("Loading initial condition from file: " ++ icFile cfg)%string;
            cout "  Subtract initial condition by baseflow to form a linear initial perturbation"].
    split; reflexivity.
  - exists [cout ("Loading initial condition from file: " ++ icFile cfg)%string;
            cout "  (failed: using zero initial condition)";
            cout "  Subtract initial condition by baseflow to form a linear initial perturbation"].
    split; reflexivity.
Qed.

(** ** Whole runs *)

(** A run that reaches line 216 and does not take the subtraction branch
    goes through the loop and returns 0. *)
Lemma run_plain (cfg : Config) (s : Setup) (log0 : list Event) :
  startup cfg [] = (Normal s, log0) ->
  subtractBaseflow cfg && negb (icFile cfg =? "") = false ->
  let x := loaded_or_zero cfg (setup_grid_ s) (setup_geom s) in
  fst (run cfg) = Normal 0%Z
  /\ advanced_states (snd (run cfg))
     = trajectory (Z.to_nat (numSteps cfg)) (setup_solver s) x
  /\ In (logger_doOutput x) (snd (run cfg))
  /\ (icFile cfg <> "" ->
      fst (State_load (icFile cfg)
             (zero_state (setup_grid_ s) (setup_geom s))) = false ->
      In (cout "  (failed: using zero initial condition)") (snd (run cfg))).
Proof.
  intros Hs Hsub x.
  assert (Hq := quiet_states [] (quiet_startup cfg)).
  rewrite Hs in Hq. cbn [snd advanced_states] in Hq.
  unfold run, main. rewrite (bind_normal _ _ _ Hs).
  destruct (initial_condition_plain cfg (setup_modelType s) (setup_grid_ s)
              (setup_geom s) (setup_x00 s) log0 Hsub)
    as (a1 & Hic & Ha1 & Hfail).
  rewrite (bind_normal _ _ _ Hic).
  destruct (time_loop_result cfg (setup_solver s) x (log0 ++ a1))
    as (a2 & Htl & Ha2 & Hout).
  fold x. rewrite Htl. cbn [fst snd].
  split; [reflexivity|]. split; [|split].
  - rewrite !advanced_states_app, Hq, Ha1, Ha2. reflexivity.
  - apply in_or_app. right. exact Hout.
  - intros H1 H2. apply in_or_app. left. apply in_or_app. right.
    apply Hfail; assumption.
Qed.

(** A configuration that lines 99-125 turn away. *)
Lemma startup_rejects (cfg : Config) :
  ((modelType_of cfg = LINEAR \/ modelType_of cfg = ADJOINT)
   /\ (baseFlow cfg = "" \/ periodBaseFlowName cfg <> ""))
  \/ (modelType_of cfg = LINEARPERIODIC
      /\ (periodBaseFlowName cfg = "" \/ baseFlow cfg <> "")) ->
  exists log',
    startup cfg [] = (Exit 1, log')
    /\ advanced_states log' = []
    /\ (last log' (cout "") = parser_printUsage
        \/ exists msg, In msg baseflow_diagnostics
                       /\ last log' (cout "") = cout msg).
Proof.
  intros H.
  assert (Hm : modelType_of cfg <> INVALID).
  { intro Hi. rewrite Hi in H.
    destruct H as [[[H|H] _] | [H _]]; discriminate H. }
  assert (Hq := quiet_states [] (quiet_startup cfg)).
  remember (startup cfg []) as r eqn:Hr.
  unfold startup in Hr. unfold bind at 1 in Hr. cbn [emit] in Hr.
  rewrite (bind_normal _ _ _ (str2model_valid cfg _ Hm)) in Hr.
  destruct (negb (inputIsValid cfg) || helpFlag cfg) eqn:Hc.
  - rewrite (bind_exit _ _ _ (check_parameters_stop cfg _ _ Hc)) in Hr.
    subst r. eexists. split; [reflexivity|]. split; [exact Hq|].
    left. reflexivity.
  - assert (Hv : inputIsValid cfg = true)
      by (destruct (inputIsValid cfg); [reflexivity | discriminate Hc]).
    assert (Hh : helpFlag cfg = false)
      by (rewrite Hv in Hc; exact Hc).
    rewrite (bind_normal _ _ _ (check_parameters_pass cfg _ Hv Hh Hm)) in Hr.
    match type of Hr with
    | context [bind (check_baseflow_options cfg _) _ ?l] =>
        destruct (check_baseflow_options_reject cfg l H) as (msg & Hin & Hx)
    end.
    rewrite (bind_exit _ _ _ Hx) in Hr.
    subst r. eexists. split; [reflexivity|]. split; [exact Hq|].
    right. exists msg. split; [exact Hin | apply last_last].
Qed.



End Facts.

End DriverFacts.

(** * ibpm.cc: the claims *)

Module DriverClaims.

Import Driver DriverFacts.

Section Claims.

Context {F : FieldSpace} {E : Collaborators} {T : TimeSteppers}.

Local Open Scope string_scope.
Local Open Scope list_scope.

(** Lines 177, 181 and 192 drop what [State::load] returns.  For a Linear,
    Adjoint or LinearizedPeriodic run whose parameters pass the checks of
    lines 99-125, whose geometry file loads and whose scheme is known, and
    with the subbaseflow flag off, main returns 0 after numSteps calls of
    [advance] whatever the loads of the base-flow files return, and a steady
    model is built on the state as [x00.load] left it. *)
Lemma baseflow_load_result_is_dropped (cfg : Config) :
  (modelType_of cfg = LINEAR \/ modelType_of cfg = ADJOINT
   \/ modelType_of cfg = LINEARPERIODIC) ->
  inputIsValid cfg = true ->
  helpFlag cfg = false ->
  baseflow_options_fit cfg (modelType_of cfg) ->
  (modelType_of cfg = LINEARPERIODIC -> (1 <= period cfg)%Z) ->
  fst (Geometry_load (geomFile cfg) Geometry_new) = true ->
  known_scheme (integratorType cfg) = true ->
  subtractBaseflow cfg = false ->
  fst (run cfg) = Normal 0%Z
  /\ count_advance (snd (run cfg)) = Z.to_nat (numSteps cfg)
  /\ forall grid geom log,
       let x00 := snd (State_load (baseFlow cfg)
                         (State_new grid (getNumPoints geom))) in
       fst (setup_model cfg LINEAR grid geom log)
       = Normal (LinearizedNavierStokes grid geom (Reynolds cfg) x00, x00)
       /\ fst (setup_model cfg ADJOINT grid geom log)
          = Normal (AdjointNavierStokes grid geom (Reynolds cfg) x00, x00).
Proof.
  intros _ Hv Hh Hfit Hper Hgeo Hsch Hsub.
  destruct (startup_result cfg Hv Hh Hfit Hper Hgeo Hsch)
    as (s & log0 & Hs & _ & _).
  assert (Hsub' : subtractBaseflow cfg && negb (icFile cfg =? "") = false)
    by (rewrite Hsub; reflexivity).
  destruct (run_plain cfg Hs Hsub') as (Hr & Hadv & _).
  split; [exact Hr|]. split.
  - rewrite count_advance_length, Hadv. apply trajectory_length.
  - intros grid geom log. split; reflexivity.
Qed.

(** C8, as the code has it: a Linear or Adjoint run with no base flow or with
    a periodic base flow named, and a LinearPeriodic run with no periodic
    base flow or with a single base flow named, ends in [exit(1)] before any
    call of [advance]; the last thing written is one of the four diagnostics
    of lines 104-125, or the usage text when the parameters were turned away
    at line 99. *)
Theorem C8_unfit_baseflow_options_exit (cfg : Config) :
  ((modelType_of cfg = LINEAR \/ modelType_of cfg = ADJOINT)
   /\ (baseFlow cfg = "" \/ periodBaseFlowName cfg <> ""))
  \/ (modelType_of cfg = LINEARPERIODIC
      /\ (periodBaseFlowName cfg = "" \/ baseFlow cfg <> "")) ->
  fst (run cfg) = Exit 1
  /\ count_advance (snd (run cfg)) = 0
  /\ (last (snd (run cfg)) (cout "") = parser_printUsage
      \/ exists msg, In msg baseflow_diagnostics
                     /\ last (snd (run cfg)) (cout "") = cout msg).
Proof.
  intros H. destruct (startup_rejects cfg H) as (log' & Hs & Ha & Hlast).
  unfold run, main. rewrite (bind_exit _ _ _ Hs). cbn [fst snd].
  split; [reflexivity|]. split; [|exact Hlast].
  rewrite count_advance_length, Ha. reflexivity.
Qed.


(** C10, as the code has it: in a run of the Nonlinear model that reaches
    line 216, the subbaseflow flag matters only when an initial-condition
    file is named.  Then main writes "Flag subbaseflow should be true only
    for linear cases" and calls [exit(1)] before any call of [advance].
    Otherwise the run goes through the loop from the state as read, or
    zeroed, with nothing subtracted, and returns 0. *)
Theorem C10_subbaseflow_flag_with_nonlinear_model
  (cfg : Config) (s : Setup) (log0 : list Event) :
  startup cfg [] = (Normal s, log0) ->
  setup_modelType s = NONLINEAR ->
  let x := loaded_or_zero cfg (setup_grid_ s) (setup_geom s) in
  if subtractBaseflow cfg && negb (icFile cfg =? "")
  then fst (run cfg) = Exit 1
       /\ last (snd (run cfg)) (cout "")
          = cout "Flag subbaseflow should be true only for linear cases"
       /\ count_advance (snd (run cfg)) = 0
  else fst (run cfg) = Normal 0%Z
       /\ In (logger_doOutput x) (snd (run cfg))
       /\ advanced_states (snd (run cfg))
          = trajectory (Z.to_nat (numSteps cfg)) (setup_solver s) x.
Proof.
  intros Hs Hmt x.
  destruct (subtractBaseflow cfg && negb (icFile cfg =? "")) eqn:Hsub.
  - apply andb_true_iff in Hsub. destruct Hsub as [Hflag Hic].
    apply negb_true_iff, String.eqb_neq in Hic.
    assert (Hq := quiet_states [] (quiet_startup cfg)).
    rewrite Hs in Hq. cbn [snd advanced_states] in Hq.
    unfold run, main. rewrite (bind_normal _ _ _ Hs), Hmt.
    destruct (initial_condition_nonlinear_flag cfg (setup_grid_ s)
                (setup_geom s) (setup_x00 s) log0 Hflag Hic)
      as (added & Hx & Ha).
    rewrite (bind_exit _ _ _ Hx). cbn [fst snd].
    split; [reflexivity|]. split.
    + rewrite app_assoc. apply last_last.
    + rewrite count_advance_length, !advanced_states_app, Hq, Ha.
      reflexivity.
  - destruct (run_plain cfg Hs Hsub) as (Hr & Hadv & Hout & _).
    repeat split; assumption.
Qed.

End Claims.

Import Sample.

Local Open Scope string_scope.
Local Open Scope list_scope.

(** C2, evaluated: [ibpm -nsteps 3 -model linear -baseflow base.bin] where
    base.bin cannot be loaded.  The load fails, main does not exit, and it
    goes through its three steps and returns 0. *)
Theorem C2_linear_run_survives_missing_baseflow :
  let files := ["ibpm.geom"] in
  let cfg := config "linear" "base.bin" "" "" false in
  @modelType_of ListFields (collaborators files) cfg = LINEAR
  /\ fst (@State_load ListFields (collaborators files) "base.bin" fresh_state)
     = false
  /\ fst (run_with files cfg) = Normal 0%Z
  /\ count_advance (snd (run_with files cfg)) = 3
  /\ ~ (exists c, fst (run_with files cfg) = Exit c).
Proof.
  cbv zeta. repeat split.
  intros [c H].
  assert (R : fst (run_with ["ibpm.geom"]
                     (config "linear" "base.bin" "" "" false))
              = Normal 0%Z) by reflexivity.
  rewrite R in H. discriminate H.
Qed.

(** The same for [ibpm -nsteps 3 -model Adjoint -baseflow steady.bin], from
    the general statement. *)
Lemma adjoint_run_survives_missing_baseflow :
  let files := ["ibpm.geom"] in
  let cfg := config "Adjoint" "steady.bin" "" "" false in
  @modelType_of ListFields (collaborators files) cfg = ADJOINT
  /\ fst (@State_load ListFields (collaborators files) "steady.bin"
            fresh_state) = false
  /\ fst (run_with files cfg) = Normal 0%Z
  /\ count_advance (snd (run_with files cfg)) = 3.
Proof.
  cbv zeta. split; [reflexivity|]. split; [reflexivity|].
  destruct (@baseflow_load_result_is_dropped ListFields
              (collaborators ["ibpm.geom"]) (steppers ["ibpm.geom"])
              (config "Adjoint" "steady.bin" "" "" false))
    as (H1 & H2 & _).
  - right. left. reflexivity.
  - reflexivity.
  - reflexivity.
  - split; [discriminate | reflexivity].
  - intros _. apply Z.le_refl.
  - reflexivity.
  - reflexivity.
  - reflexivity.
  - split; [exact H1 | exact H2].
Defined.

(** C8 fails as stated: [ibpm -model nonlinear -pbaseflowname
    flow/ibpmperiodic%05d.bin] names a periodic base flow for a model that is
    not periodic; main writes no diagnostic, goes through its three steps and
    returns 0. *)
Lemma C8_nonlinear_run_ignores_periodic_baseflow :
  let files := ["ibpm.geom"] in
  let cfg := config "nonlinear" "" "flow/ibpmperiodic%05d.bin" "" false in
  @modelType_of ListFields (collaborators files) cfg = NONLINEAR
  /\ periodBaseFlowName cfg <> ""
  /\ fst (run_with files cfg) = Normal 0%Z
  /\ count_advance (snd (run_with files cfg)) = 3
  /\ forallb (fun msg => negb (wrote (snd (run_with files cfg)) msg))
             baseflow_diagnostics = true.
Proof.
  cbv zeta. split; [reflexivity|]. split; [discriminate|].
  repeat split.
Qed.

(** C8 at [ibpm -model linear -baseflow base.bin -pbaseflowname
    flow/ibpmperiodic%05d.bin]: exit(1), no step taken. *)
Lemma C8_witness_linear_with_periodic_baseflow :
  let files := ["ibpm.geom"; "base.bin"] in
  let cfg := config "linear" "base.bin" "flow/ibpmperiodic%05d.bin" "" false in
  @modelType_of ListFields (collaborators files) cfg = LINEAR
  /\ periodBaseFlowName cfg <> ""
  /\ fst (run_with files cfg) = Exit 1
  /\ count_advance (snd (run_with files cfg)) = 0.
Proof.
  cbv zeta. split; [reflexivity|]. split; [discriminate|].
  destruct (@C8_unfit_baseflow_options_exit ListFields
              (collaborators ["ibpm.geom"; "base.bin"])
              (steppers ["ibpm.geom"; "base.bin"])
              (config "linear" "base.bin" "flow/ibpmperiodic%05d.bin" ""
                      false))
    as (H1 & H2 & _).
  - left. split; [left; reflexivity | right; discriminate].
  - split; [exact H1 | exact H2].
Defined.



(** C10 fails as stated: [ibpm -subbaseflow 1] with the default nonlinear
    model and no initial-condition file; main writes no error, goes through
    its three steps and returns 0. *)
Lemma C10_flag_ignored_without_ic_file :
  let files := ["ibpm.geom"] in
  let cfg := config "nonlinear" "" "" "" true in
  @modelType_of ListFields (collaborators files) cfg = NONLINEAR
  /\ subtractBaseflow cfg = true
  /\ fst (run_with files cfg) = Normal 0%Z
  /\ count_advance (snd (run_with files cfg)) = 3
  /\ wrote (snd (run_with files cfg))
           "Flag subbaseflow should be true only for linear cases" = false.
Proof.
  cbv zeta. repeat split.
Qed.

(** C10 at [ibpm -ic ic.bin -subbaseflow 1] with the default nonlinear
    model, where ic.bin loads: exit(1) after the error line, no step taken. *)
Lemma C10_witness_flag_with_ic_file :
  let files := ["ibpm.geom"; "ic.bin"] in
  let cfg := config "nonlinear" "" "" "ic.bin" true in
  subtractBaseflow cfg = true
  /\ fst (run_with files cfg) = Exit 1
  /\ last (snd (run_with files cfg)) (cout "")
     = cout "Flag subbaseflow should be true only for linear cases"
  /\ count_advance (snd (run_with files cfg)) = 0.
Proof.
  cbv zeta. split; [reflexivity|].
  pose (files := ["ibpm.geom"; "ic.bin"]).
  pose (cfg := config "nonlinear" "" "" "ic.bin" true).
  assert (Hs : @startup ListFields (collaborators files) (steppers files)
                 cfg []
               = (Normal (setup_reached files cfg),
                  snd (@startup ListFields (collaborators files)
                         (steppers files) cfg [])))
    by reflexivity.
  exact (C10_subbaseflow_flag_with_nonlinear_model cfg Hs
           (eq_refl : setup_modelType (setup_reached files cfg) = NONLINEAR)).
Defined.

End DriverClaims.

(** * Euler.cc: several steps in a row *)

Module EulerExtras.

Import Core CoreView EulerFacts.

Section Extras.

Context {F : FieldSpace} {G : GeometryClass} {B : TimeStepperBase}.

Lemma moves_app (l1 l2 : list Call) :
  moves (l1 ++ l2) = moves l1 ++ moves l2.
Proof.
  induction l1 as [|c l1 IH]; [reflexivity|].
  destruct c; cbn [app moves]; rewrite IH; reflexivity.
Qed.

Lemma solve_bs_app (l1 l2 : list Call) :
  solve_bs (l1 ++ l2) = solve_bs l1 ++ solve_bs l2.
Proof.
  induction l1 as [|c l1 IH]; [reflexivity|].
  destruct c; cbn [app solve_bs]; rewrite IH; reflexivity.
Qed.

Lemma moves_of_advance (this : Euler) (x : State) (g : Geometry) :
  moves (calls_of_advance this x g)
  = if isStationary g then [] else [time x].
Proof. unfold calls_of_advance. destruct (isStationary g); reflexivity. Qed.

Lemma solve_bs_of_advance (this : Euler) (x : State) (g : Geometry) :
  solve_bs (calls_of_advance this x g)
  = [getVelocities (geometry_in_step x g)].
Proof. unfold calls_of_advance. destruct (isStationary g); reflexivity. Qed.

Lemma step_times_nth (n : nat) :
  forall k t h, k < n ->
    nth k (step_times n t h) d0 = add_n_times k t h.
Proof.
  induction n as [|n IH]; intros k t h Hk; [lia|].
  destruct k as [|k]; [reflexivity|].
  cbn [step_times nth add_n_times]. apply IH. lia.
Qed.

Lemma step_times_length (n : nat) :
  forall t h, List.length (step_times n t h) = n.
Proof.
  induction n as [|n IH]; intros t h; [reflexivity|].
  cbn [step_times List.length]. rewrite IH. reflexivity.
Qed.

(** Over a geometry that stays non-stationary, n steps from time t0 move the
    bodies n times, to t0, t0 + h, ..., t0 + (n-1) h: the k-th step moves
    them to the time the k-th step starts at, and after the last step
    [x.time] is one h ahead of where the bodies are. *)
Theorem moving_bodies_lag_one_step
  (this : Euler) (n : nat) (x : State) (w : World) :
  (forall t g, isStationary g = false ->
               isStationary (moveBodies t g) = false) ->
  isStationary (geometry w) = false ->
  exists made,
    calls (snd (advance_n this n x w)) = calls w ++ made
    /\ moves made = step_times n (time x) (_timestep this)
    /\ (forall k, k < n ->
          nth k (moves made) d0 = add_n_times k (time x) (_timestep this))
    /\ time (fst (advance_n this n x w))
       = add_n_times n (time x) (_timestep this).
Proof.
  intros Hkeep. revert x w.
  assert (Hmain : forall x w, isStationary (geometry w) = false ->
            exists made,
              calls (snd (advance_n this n x w)) = calls w ++ made
              /\ moves made = step_times n (time x) (_timestep this)).
  { induction n as [|n IH]; intros x w Hw.
    - exists []. cbn. rewrite app_nil_r. split; reflexivity.
    - cbn [advance_n]. unfold bind. rewrite advance_unfold.
      destruct (IH (state_after_advance this x (geometry w))
                   (mkWorld (geometry_in_step x (geometry w))
                      (calls w ++ calls_of_advance this x (geometry w))))
        as (made & Hc & Hm).
      { cbn [geometry]. unfold geometry_in_step. rewrite Hw.
        apply Hkeep. exact Hw. }
      exists (calls_of_advance this x (geometry w) ++ made).
      rewrite Hc. cbn [calls]. rewrite <- app_assoc.
      split; [reflexivity|].
      rewrite moves_app, moves_of_advance, Hw, Hm. reflexivity. }
  intros x w Hw. destruct (Hmain x w Hw) as (made & Hc & Hm).
  exists made. split; [exact Hc|]. split; [exact Hm|]. split.
  - intros k Hk. rewrite Hm. apply step_times_nth. exact Hk.
  - apply advance_n_time.
Qed.

(** Over a stationary geometry, n steps never call [moveBodies], leave the
    Geometry object as it was, and hand the same boundary velocity, the one
    of the geometry at the start, to each of the n calls of [solve]. *)
Theorem stationary_bodies_same_b
  (this : Euler) (n : nat) (x : State) (w : World) :
  isStationary (geometry w) = true ->
  exists made,
    calls (snd (advance_n this n x w)) = calls w ++ made
    /\ moves made = []
    /\ solve_bs made = repeat (getVelocities (geometry w)) n
    /\ geometry (snd (advance_n this n x w)) = geometry w.
Proof.
  revert x w. induction n as [|n IH]; intros x w Hw.
  - exists []. cbn. rewrite app_nil_r. repeat split.
  - cbn [advance_n]. unfold bind. rewrite advance_unfold.
    assert (Hg : geometry_in_step x (geometry w) = geometry w)
      by (unfold geometry_in_step; rewrite Hw; reflexivity).
    destruct (IH (state_after_advance this x (geometry w))
                 (mkWorld (geometry_in_step x (geometry w))
                    (calls w ++ calls_of_advance this x (geometry w))))
      as (made & Hc & Hm & Hb & Hgeo).
    { cbn [geometry]. rewrite Hg. exact Hw. }
    exists (calls_of_advance this x (geometry w) ++ made).
    rewrite Hc, Hgeo. cbn [calls geometry]. rewrite <- app_assoc.
    split; [reflexivity|].
    rewrite moves_app, solve_bs_app, moves_of_advance, solve_bs_of_advance,
      Hw, Hm, Hb. cbn [geometry]. rewrite Hg.
    repeat split.
Qed.

End Extras.

Import Sample.

Lemma moving_bodies_lag_one_step_witness :
  exists made,
    calls (snd (advance_n stepper_half 2 x_at_1 moving_world))
    = calls moving_world ++ made
    /\ moves made = [1%float; 1.5%float]
    /\ time (fst (advance_n stepper_half 2 x_at_1 moving_world)) = 2%float.
Proof.
  destruct (moving_bodies_lag_one_step stepper_half 2 x_at_1 moving_world)
    as (made & Hc & Hm & _ & Ht).
  - intros t g H. exact H.
  - reflexivity.
  - exists made. split; [exact Hc|]. split; [exact Hm | exact Ht].
Defined.

Lemma stationary_bodies_same_b_witness :
  exists made,
    calls (snd (advance_n stepper_tenth 3 x_at_0 still_world))
    = calls still_world ++ made
    /\ moves made = []
    /\ solve_bs made = [[0%float]; [0%float]; [0%float]].
Proof.
  destruct (stationary_bodies_same_b stepper_tenth 3 x_at_0 still_world
              eq_refl)
    as (made & Hc & Hm & Hb & _).
  exists made. split; [exact Hc|]. split; [exact Hm | exact Hb].
Defined.

End EulerExtras.

(** * ibpm.cc: what main does before, in and after the loop *)

Module DriverExtras.

Import Driver DriverView DriverFacts.

Section Extras.

Context {F : FieldSpace} {E : Collaborators} {T : TimeSteppers}.

Local Open Scope string_scope.
Local Open Scope list_scope.

(** ** Reading the console *)

Lemma step_numbers_app (l1 l2 : list Event) :
  step_numbers (l1 ++ l2) = step_numbers l1 ++ step_numbers l2.
Proof.
  induction l1 as [|e l1 IH]; [reflexivity|].
  destruct e; cbn [app step_numbers]; try (rewrite IH; reflexivity).
  destruct (before =? "step "); rewrite IH; reflexivity.
Qed.

Lemma logged_states_app (l1 l2 : list Event) :
  logged_states (l1 ++ l2) = logged_states l1 ++ logged_states l2.
Proof.
  induction l1 as [|e l1 IH]; [reflexivity|].
  destruct e; cbn [app logged_states]; rewrite IH; reflexivity.
Qed.

Lemma registered_app (l1 l2 : list Event) :
  registered (l1 ++ l2) = registered l1 ++ registered l2.
Proof.
  induction l1 as [|e l1 IH]; [reflexivity|].
  destruct e; cbn [app registered]; rewrite IH; reflexivity.
Qed.

Lemma before_loop_nothing (l : list Event) :
  forallb before_loop l = true ->
  advanced_states l = [] /\ logged_states l = []
  /\ step_numbers l = [] /\ registered l = [].
Proof.
  induction l as [|e l IH]; [repeat split|].
  cbn [forallb]. intros H. apply andb_true_iff in H. destruct H as [He Hl].
  specialize (IH Hl). destruct IH as (H1 & H2 & H3 & H4).
  destruct e; cbn in He; try discriminate He;
    cbn [advanced_states logged_states step_numbers registered];
    try (repeat split; assumption).
  destruct (before =? "step "); [discriminate He|].
  repeat split; assumption.
Qed.

(** ** Parts of main that come before line 246 *)

Lemma prelude_ret {A : Type} (a : A) : prelude (ret a).
Proof.
  intro log. exists []. rewrite app_nil_r.
  split; [reflexivity|]. split; [reflexivity|]. intros c H. discriminate H.
Qed.

Lemma prelude_exit_1 {A : Type} : prelude (@exit F E A 1).
Proof.
  intro log. exists []. rewrite app_nil_r.
  split; [reflexivity|]. split; [reflexivity|].
  intros c H. injection H as <-. left. reflexivity.
Qed.

Lemma prelude_exit_minus_1 {A : Type} : prelude (@exit F E A (-1)).
Proof.
  intro log. exists []. rewrite app_nil_r.
  split; [reflexivity|]. split; [reflexivity|].
  intros c H. injection H as <-. right. reflexivity.
Qed.

Lemma prelude_abort {A : Type} :
  prelude (fun log : list Event => (@Abort A, log)).
Proof.
  intro log. exists []. rewrite app_nil_r.
  split; [reflexivity|]. split; [reflexivity|]. intros c H. discriminate H.
Qed.

Lemma prelude_assert (b : bool) : prelude (assert b).
Proof.
  intro log. exists []. rewrite app_nil_r. unfold assert.
  destruct b; (split; [reflexivity|]); (split; [reflexivity|]);
    intros c H; discriminate H.
Qed.

Lemma prelude_emit (e : Event) : before_loop e = true -> prelude (emit e).
Proof.
  intros H log. exists [e]. split; [reflexivity|].
  split; [cbn; rewrite H; reflexivity|]. intros c Hc. discriminate Hc.
Qed.

Lemma prelude_bind {A C : Type} (m : Prog A) (k : A -> Prog C) :
  prelude m -> (forall a, prelude (k a)) -> prelude (bind m k).
Proof.
  intros Hm Hk log. unfold bind.
  destruct (Hm log) as (added & Hs & Ha & Hc).
  destruct (m log) as [[a| c |] log']; cbn [fst snd] in Hs, Hc; subst log'.
  - destruct (Hk a (log ++ added)) as (added' & Hs' & Ha' & Hc').
    exists (added ++ added'). rewrite Hs', app_assoc, forallb_app, Ha, Ha'.
    split; [reflexivity|]. split; [reflexivity | exact Hc'].
  - exists added. split; [reflexivity|]. split; [exact Ha|].
    intros c0 H. injection H as <-. apply Hc. reflexivity.
  - exists added. split; [reflexivity|]. split; [exact Ha|].
    intros c H. discriminate H.
Qed.

Ltac prelude_step :=
  first
    [ apply prelude_ret
    | apply prelude_exit_1
    | apply prelude_exit_minus_1
    | apply prelude_abort
    | apply prelude_assert
    | apply prelude_emit; reflexivity
    | apply prelude_bind; [|intros]
    | match goal with
      | |- prelude (if ?b then _ else _) => destruct b
      | |- prelude (let (_, _) := ?p in _) => destruct p
      | |- prelude (match ?m with _ => _ end) => destruct m
      end ].

Ltac prelude_tac := repeat prelude_step.

Lemma prelude_load_periodic pbf start (x0 : list State) :
  forall i, prelude (load_periodic pbf start i x0).
Proof.
  induction x0 as [|xi rest IH]; intro i; cbn [load_periodic].
  - apply prelude_ret.
  - apply prelude_bind; [apply prelude_emit; reflexivity | intros _].
    apply prelude_bind; [apply IH | intros; apply prelude_ret].
Qed.

Lemma prelude_setup_model cfg mt grid geom :
  prelude (setup_model cfg mt grid geom).
Proof.
  unfold setup_model.
  do 2 (apply prelude_bind; [apply prelude_emit; reflexivity | intros _]).
  apply prelude_bind; [|intros; prelude_tac].
  destruct mt; prelude_tac. apply prelude_load_periodic.
Qed.

Lemma prelude_startup cfg : prelude (startup cfg).
Proof.
  unfold startup.
  apply prelude_bind; [apply prelude_emit; reflexivity | intros _].
  apply prelude_bind; [unfold str2model; prelude_tac | intros mt].
  apply prelude_bind; [unfold check_parameters; prelude_tac | intros _].
  apply prelude_bind; [unfold check_baseflow_options; prelude_tac | intros _].
  apply prelude_bind; [unfold setup_grid; prelude_tac | intros og].
  apply prelude_bind; [unfold setup_geometry; prelude_tac | intros geom].
  apply prelude_bind; [apply prelude_setup_model | intros mx].
  apply prelude_bind; [|intros; apply prelude_ret].
  unfold setup_timestepper.
  apply prelude_bind; [unfold GetSolver; prelude_tac | intros].
  prelude_tac.
Qed.

Lemma prelude_initial_condition cfg mt grid geom x00 :
  prelude (initial_condition cfg mt grid geom x00).
Proof. unfold initial_condition. prelude_tac. Qed.

(** ** str2model *)

(** [str2model] never ends the process.  It answers NONLINEAR, LINEAR,
    ADJOINT or LINEARPERIODIC exactly for the names that read "nonlinear",
    "linear", "adjoint", "linearperiodic" once made lowercase, answers
    INVALID for every other name, and writes one line to cerr, naming the
    lowercase form, exactly when the answer is INVALID. *)
Theorem str2model_classifies (modelName : string) (log : list Event) :
  let l := MakeLowercase modelName in
  exists mt,
    str2model modelName log
    = (Normal mt,
       log ++ (if ModelType_eqb mt INVALID
               then [cerr ("Unrecognized model: " ++ l)] else []))
    /\ (mt = NONLINEAR <-> l = "nonlinear")
    /\ (mt = LINEAR <-> l = "linear")
    /\ (mt = ADJOINT <-> l = "adjoint")
    /\ (mt = LINEARPERIODIC <-> l = "linearperiodic")
    /\ (mt = INVALID <->
        l <> "nonlinear" /\ l <> "linear" /\ l <> "adjoint"
        /\ l <> "linearperiodic").
Proof.
  cbv zeta. unfold str2model.
  pose (l := MakeLowercase modelName). fold l.
  assert (Hfin : forall mt,
             (mt = NONLINEAR <-> l = "nonlinear")
             /\ (mt = LINEAR <-> l = "linear")
             /\ (mt = ADJOINT <-> l = "adjoint")
             /\ (mt = LINEARPERIODIC <-> l = "linearperiodic")
             /\ (mt = INVALID <->
                 l <> "nonlinear" /\ l <> "linear" /\ l <> "adjoint"
                 /\ l <> "linearperiodic") ->
             forall r,
               r = (Normal mt,
                    log ++ (if ModelType_eqb mt INVALID
                            then [cerr ("Unrecognized model: " ++ l)]
                            else [])) ->
               exists mt',
                 r = (Normal mt',
                      log ++ (if ModelType_eqb mt' INVALID
                              then [cerr ("Unrecognized model: " ++ l)]
                              else []))
                 /\ (mt' = NONLINEAR <-> l = "nonlinear")
                 /\ (mt' = LINEAR <-> l = "linear")
                 /\ (mt' = ADJOINT <-> l = "adjoint")
                 /\ (mt' = LINEARPERIODIC <-> l = "linearperiodic")
                 /\ (mt' = INVALID <->
                     l <> "nonlinear" /\ l <> "linear" /\ l <> "adjoint"
                     /\ l <> "linearperiodic")).
  { intros mt H r Hr. exists mt. split; assumption. }
  destruct (String.eqb_spec l "nonlinear") as [H1|H1].
  { apply (Hfin NONLINEAR);
      [|cbn; rewrite app_nil_r; reflexivity].
    rewrite H1. repeat match goal with |- _ /\ _ => split end;
      (split; intros Hx); try discriminate Hx; try reflexivity.
    destruct Hx as (Ha & _). contradiction Ha. reflexivity. }
  destruct (String.eqb_spec l "linear") as [H2|H2].
  { apply (Hfin LINEAR); [|cbn; rewrite app_nil_r; reflexivity].
    rewrite H2. repeat match goal with |- _ /\ _ => split end;
      (split; intros Hx); try discriminate Hx; try reflexivity.
    destruct Hx as (_ & Ha & _). contradiction Ha. reflexivity. }
  destruct (String.eqb_spec l "adjoint") as [H3|H3].
  { apply (Hfin ADJOINT); [|cbn; rewrite app_nil_r; reflexivity].
    rewrite H3. repeat match goal with |- _ /\ _ => split end;
      (split; intros Hx); try discriminate Hx; try reflexivity.
    destruct Hx as (_ & _ & Ha & _). contradiction Ha. reflexivity. }
  destruct (String.eqb_spec l "linearperiodic") as [H4|H4].
  { apply (Hfin LINEARPERIODIC);
      [|cbn; rewrite app_nil_r; reflexivity].
    rewrite H4. repeat match goal with |- _ /\ _ => split end;
      (split; intros Hx); try discriminate Hx; try reflexivity.
    destruct Hx as (_ & _ & _ & Ha). contradiction Ha. reflexivity. }
  apply (Hfin INVALID); [|reflexivity].
  repeat match goal with |- _ /\ _ => split end;
    (split; intros Hx); try discriminate Hx; try contradiction;
    try reflexivity.
  repeat split; assumption.
Qed.

Lemma str2model_console (cfg : Config) (log : list Event) :
  str2model (modelName cfg) log
  = (Normal (modelType_of cfg),
     log ++ (if ModelType_eqb (modelType_of cfg) INVALID
             then [cerr ("Unrecognized model: "
                         ++ MakeLowercase (modelName cfg))]
             else [])).
Proof.
  unfold modelType_of, str2model.
  destruct (MakeLowercase (modelName cfg) =? "nonlinear");
    [cbn; rewrite app_nil_r; reflexivity|].
  destruct (MakeLowercase (modelName cfg) =? "linear");
    [cbn; rewrite app_nil_r; reflexivity|].
  destruct (MakeLowercase (modelName cfg) =? "adjoint");
    [cbn; rewrite app_nil_r; reflexivity|].
  destruct (MakeLowercase (modelName cfg) =? "linearperiodic");
    [cbn; rewrite app_nil_r; reflexivity|].
  reflexivity.
Qed.

(** ** Runs that stop before the model is built *)

(** When the parser reports invalid input, the model name is not recognised,
    or -h is given, main writes the banner, the cerr line of [str2model] if
    the name was not recognised, and the usage text, and calls [exit(1)]:
    this is the whole console, so the output directory has not been made and
    the parameters have not been saved. *)
Theorem usage_and_exit (cfg : Config) :
  negb (inputIsValid cfg) || ModelType_eqb (modelType_of cfg) INVALID
  || helpFlag cfg = true ->
  run cfg = (Exit 1, usage_console cfg).
Proof.
  intros H.
  assert (Hc : forall log,
             check_parameters cfg (modelType_of cfg) log
             = (Exit 1, log ++ [parser_printUsage])).
  { intros log. unfold check_parameters. rewrite H. reflexivity. }
  assert (Hs : startup cfg [] = (Exit 1, usage_console cfg)).
  { unfold startup, usage_console. unfold bind at 1. cbn [emit app].
    rewrite (bind_normal _ _ _ (str2model_console cfg _)).
    rewrite (bind_exit _ _ _ (Hc _)). reflexivity. }
  unfold run, main. rewrite (bind_exit _ _ _ Hs). reflexivity.
Qed.

(** When the parameters are accepted and the geometry file cannot be loaded,
    main has made the output directory and saved the command line, writes
    "Reading geometry from file ..." and calls [exit(-1)]; no model is
    built. *)
Theorem no_geometry_exit (cfg : Config) :
  inputIsValid cfg = true ->
  helpFlag cfg = false ->
  baseflow_options_fit cfg (modelType_of cfg) ->
  fst (Geometry_load (geomFile cfg) Geometry_new) = false ->
  run cfg = (Exit (-1), no_geometry_console cfg).
Proof.
  intros Hv Hh Hfit Hgeo.
  assert (Hm : modelType_of cfg <> INVALID).
  { intro H. rewrite H in Hfit. exact Hfit. }
  assert (Hs : startup cfg [] = (Exit (-1), no_geometry_console cfg)).
  { unfold startup, no_geometry_console. unfold bind at 1. cbn [emit app].
    rewrite (bind_normal _ _ _ (str2model_valid cfg _ Hm)).
    rewrite (bind_normal _ _ _ (check_parameters_pass cfg _ Hv Hh Hm)).
    rewrite (bind_normal _ _ _ (check_baseflow_options_pass cfg _ _ Hfit)).
    unfold setup_grid, setup_geometry.
    destruct (Geometry_load (geomFile cfg) Geometry_new) as [ok geom].
    cbn in Hgeo. subst ok. reflexivity. }
  unfold run, main. rewrite (bind_exit _ _ _ Hs). reflexivity.
Qed.

(** ** The model and the stepper *)

Lemma bind_normal_inv {A C : Type} (m : Prog A) (k : A -> Prog C) log c log' :
  bind m k log = (Normal c, log') ->
  exists a l, m log = (Normal a, l) /\ k a l = (Normal c, log').
Proof.
  unfold bind. destruct (m log) as [[a| z |] l]; intros H;
    try discriminate H.
  exists a, l. split; [reflexivity | exact H].
Qed.

Lemma setup_model_console cfg mt grid geom log mx log' :
  setup_model cfg mt grid geom log = (Normal mx, log') ->
  exists before, log' = before ++ [model_init (fst mx); cout "done"].
Proof.
  unfold setup_model. intros H.
  apply bind_normal_inv in H. destruct H as (u1 & l1 & _ & H).
  apply bind_normal_inv in H. destruct H as (u2 & l2 & _ & H).
  apply bind_normal_inv in H. destruct H as (a & l3 & _ & H).
  cbn in H. injection H as <- <-.
  exists l3. rewrite <- app_assoc. reflexivity.
Qed.

Lemma GetSolver_unknown grid model dt s log :
  known_scheme s = false ->
  GetSolver grid model dt s log
  = (Exit 1, log ++ [cerr ("ERROR: unrecognized solver: " ++ MakeLowercase s)]).
Proof.
  unfold known_scheme, GetSolver. intros H.
  destruct (MakeLowercase s =? "euler"); [discriminate H|].
  destruct (MakeLowercase s =? "ab2"); [discriminate H|].
  destruct (MakeLowercase s =? "rk2"); [discriminate H|].
  destruct (MakeLowercase s =? "rk3"); [discriminate H|].
  reflexivity.
Qed.

(** A scheme name that is none of euler, ab2, rk2, rk3 once made lowercase is
    only found out after the geometry was read and the model was built and
    initialised: main then writes "ERROR: unrecognized solver: ..." to cerr
    and calls [exit(1)], before the logger is set up and before any step. *)
Theorem unknown_scheme_exit (cfg : Config) :
  inputIsValid cfg = true ->
  helpFlag cfg = false ->
  baseflow_options_fit cfg (modelType_of cfg) ->
  (modelType_of cfg = LINEARPERIODIC -> (1 <= period cfg)%Z) ->
  fst (Geometry_load (geomFile cfg) Geometry_new) = true ->
  known_scheme (integratorType cfg) = false ->
  exists model before,
    run cfg
    = (Exit 1,
       before ++ [model_init model; cout "done";
                  cerr ("ERROR: unrecognized solver: "
                        ++ MakeLowercase (integratorType cfg))])
    /\ count_advance (snd (run cfg)) = 0
    /\ logged_states (snd (run cfg)) = [].
Proof.
  intros Hv Hh Hfit Hper Hgeo Hsch.
  assert (Hm : modelType_of cfg <> INVALID).
  { intro H. rewrite H in Hfit. exact Hfit. }
  destruct (prelude_startup cfg []) as (added & Hadd & Hpre & _).
  destruct (before_loop_nothing _ Hpre) as (Hadv & Hlogd & _ & _).
  cbn [app] in Hadd.
  remember (startup cfg []) as r eqn:Hr.
  assert (Hst : startup cfg [] = r) by (symmetry; exact Hr).
  unfold startup in Hr. unfold bind at 1 in Hr. cbn [emit] in Hr.
  rewrite (bind_normal _ _ _ (str2model_valid cfg _ Hm)) in Hr.
  rewrite (bind_normal _ _ _ (check_parameters_pass cfg _ Hv Hh Hm)) in Hr.
  rewrite (bind_normal _ _ _ (check_baseflow_options_pass cfg _ _ Hfit))
    in Hr.
  match type of Hr with
  | context [bind (setup_grid cfg) _ ?l] =>
      destruct (setup_grid_result cfg l) as (og & l1 & H1)
  end.
  rewrite (bind_normal _ _ _ H1) in Hr.
  destruct (setup_geometry_loaded cfg l1 Hgeo) as (geom & l2 & H2).
  rewrite (bind_normal _ _ _ H2) in Hr.
  destruct (setup_model_result cfg (snd og) geom l2 Hm Hper)
    as (mx & l3 & H3 & _).
  rewrite (bind_normal _ _ _ H3) in Hr.
  destruct (setup_model_console _ _ _ _ _ H3) as (before & Hb).
  assert (H4 : setup_timestepper cfg (fst og) (snd og) (fst mx) l3
               = (Exit 1, l3 ++ [cerr ("ERROR: unrecognized solver: "
                                       ++ MakeLowercase (integratorType cfg))])).
  { unfold setup_timestepper.
    rewrite (bind_exit _ _ _ (GetSolver_unknown _ _ _ _ _ Hsch)).
    reflexivity. }
  rewrite (bind_exit _ _ _ H4) in Hr.
  exists (fst mx), before.
  unfold run, main. subst r. cbn [snd] in Hadd.
  rewrite (bind_exit _ _ _ Hst). cbn [fst snd].
  split; [|split].
  - rewrite Hb, <- app_assoc. reflexivity.
  - rewrite count_advance_length, Hadd, Hadv. reflexivity.
  - rewrite Hadd, Hlogd. reflexivity.
Qed.

Lemma load_periodic_states pbf start (fresh : State) (n : nat) :
  forall i log,
    fst (load_periodic pbf start i (repeat fresh n) log)
    = Normal (map (fun k => snd (State_load
                                   (sprintf pbf (i + Z.of_nat k + start)%Z)
                                   fresh))
                  (seq 0 n)).
Proof.
  induction n as [|n IH]; intros i log; [reflexivity|].
  cbn [repeat load_periodic]. unfold bind at 1. cbn [emit].
  specialize (IH (i + 1)%Z
                 (log ++ [cout_int "loading the " i "-th periodic baseflow:"])).
  unfold bind.
  destruct (load_periodic pbf start (i + 1) (repeat fresh n)
              (log ++ [cout_int "loading the " i "-th periodic baseflow:"]))
    as [r l].
  cbn [fst] in IH. subst r. cbn [ret fst seq map].
  f_equal. f_equal.
  - rewrite Z.add_0_r. reflexivity.
  - rewrite <- seq_shift, map_map. apply map_ext. intros k.
    do 3 f_equal. lia.
Qed.

(** For the periodic model with period >= 1, as long as the numbers
    k + periodStart stay within [int] and the file names within the 255
    characters of [pbffilename], main loads exactly [period] files, the k-th
    one (k = 0, ..., period-1) named by sprintf of the pattern with the
    number k + periodStart and loaded into a copy of the fresh state; what
    the loads return is not looked at.  The model is built on these states in
    this order, and [x00] becomes the first of them. *)
Theorem periodic_baseflow_files (cfg : Config) (grid : Grid) (geom : Geometry)
  (log : list Event) :
  (1 <= period cfg)%Z ->
  (-2147483648 <= periodStart cfg)%Z ->
  (periodStart cfg + period cfg <= 2147483648)%Z ->
  (forall k, (0 <= k < period cfg)%Z ->
     (String.length (sprintf (periodBaseFlowName cfg) (k + periodStart cfg))
      <= 255)%nat) ->
  let fresh := State_new grid (getNumPoints geom) in
  let x0 := map (fun k => snd (State_load
                                 (sprintf (periodBaseFlowName cfg)
                                          (Z.of_nat k + periodStart cfg)%Z)
                                 fresh))
                (seq 0 (Z.to_nat (period cfg))) in
  fst (setup_model cfg LINEARPERIODIC grid geom log)
  = Normal (LinearizedPeriodicNavierStokes grid geom (Reynolds cfg) x0
              (period cfg),
            nth 0 x0 fresh)
  /\ List.length x0 = Z.to_nat (period cfg).
Proof.
  intros Hp _ _ _ fresh x0. split.
  - unfold setup_model.
    replace (period cfg <? 1)%Z with false
      by (symmetry; apply Z.ltb_ge; exact Hp).
    unfold bind at 1. cbn [emit]. unfold bind at 1. cbn [emit].
    unfold bind at 1. unfold bind at 1.
    match goal with
    | |- context [load_periodic ?a ?b ?c ?d ?e] =>
        assert (Hl := load_periodic_states a b fresh
                        (Z.to_nat (period cfg)) c e);
        destruct (load_periodic a b c d e) as [r l] eqn:Hr
    end.
    fold fresh in Hr. rewrite Hr in Hl. cbn [fst] in Hl. subst r.
    cbn. unfold x0.
    destruct (Z.to_nat (period cfg)) as [|n] eqn:Hn; [lia|].
    reflexivity.
  - unfold x0. rewrite length_map, length_seq. reflexivity.
Qed.

(** The stepper is resumed or started cold: for a known scheme, main asks the
    new stepper to load "outdir + name".  If that succeeds the stepper is
    used as loaded and nothing is saved; if it fails, [init] is called on it
    and it is saved under the same name at once. *)
Theorem stepper_resumed_or_initialised
  (cfg : Config) (outdir : string) (grid : Grid) (model : Model)
  (log : list Event) :
  known_scheme (integratorType cfg) = true ->
  exists fresh_solver,
    GetSolver grid model (dt cfg) (integratorType cfg) log
    = (Normal fresh_solver, log)
    /\ let path := (outdir ++ name cfg)%string in
       let ok := fst (TimeStepper_load path fresh_solver) in
       let loaded := snd (TimeStepper_load path fresh_solver) in
       setup_timestepper cfg outdir grid model log
       = (Normal (if ok then loaded else TimeStepper_init loaded),
          log ++ [cout ("Using " ++ TimeStepper_getName fresh_solver
                               ++ " timestepper");
                  cout_double "  dt = " (dt cfg)]
              ++ (if ok then [] else [solver_save path])).
Proof.
  intros H.
  destruct (GetSolver_known grid model (dt cfg) (integratorType cfg) log H)
    as (solver & Hs).
  exists solver. split; [exact Hs|]. cbv zeta.
  unfold setup_timestepper. rewrite (bind_normal _ _ _ Hs).
  unfold bind at 1. cbn [emit]. unfold bind at 1. cbn [emit].
  destruct (TimeStepper_load (outdir ++ name cfg)%string solver) as [ok s'].
  destruct ok; cbn; repeat (rewrite <- app_assoc; cbn [app]); reflexivity.
Qed.

(** ** The initial condition *)

Lemma initial_condition_subtract cfg mt grid geom x00 log :
  mt <> NONLINEAR ->
  icFile cfg <> "" ->
  subtractBaseflow cfg = true ->
  fst (initial_condition cfg mt grid geom x00 log)
  = if same_Ngrid (loaded cfg grid geom) x00
    then Normal (subtract_baseflow (loaded cfg grid geom) x00)
    else Abort.
Proof.
  intros Hmt Hic Hsub. unfold initial_condition, loaded, same_Ngrid.
  apply String.eqb_neq in Hic. rewrite Hic, Hsub. cbn [negb].
  assert (Hn : ModelType_eqb mt NONLINEAR = false)
    by (destruct mt; try reflexivity; contradiction Hmt; reflexivity).
  rewrite Hn. cbn [negb].
  destruct (State_load (icFile cfg) (zero_state grid geom)) as [ok x].
  cbn [snd].
  destruct ok;
    destruct (Flux_Ngrid (q x) =? Flux_Ngrid (q x00))%Z;
    destruct (Scalar_Ngrid (omega x) =? Scalar_Ngrid (omega x00))%Z;
    reflexivity.
Qed.

(** With an initial-condition file named, the subbaseflow flag on and a model
    other than the nonlinear one, a run that reaches line 216 checks that the
    state read and the base flow have the same number of grid levels, in q
    and in omega.  If they have, the loop starts from the state read with
    [x00.q] and [x00.omega] subtracted and f set to 0, and main returns 0; if
    not, an assert fails and no step is taken. *)
Theorem subtraction_for_linear_models
  (cfg : Config) (s : Setup) (log0 : list Event) :
  startup cfg [] = (Normal s, log0) ->
  setup_modelType s <> NONLINEAR ->
  icFile cfg <> "" ->
  subtractBaseflow cfg = true ->
  let x := loaded cfg (setup_grid_ s) (setup_geom s) in
  let x00 := setup_x00 s in
  if same_Ngrid x x00
  then fst (run cfg) = Normal 0%Z
       /\ advanced_states (snd (run cfg))
          = trajectory (Z.to_nat (numSteps cfg)) (setup_solver s)
              (subtract_baseflow x x00)
       /\ q (subtract_baseflow x x00) = Flux_isub (q x) (q x00)
       /\ omega (subtract_baseflow x x00) = Scalar_isub (omega x) (omega x00)
       /\ f (subtract_baseflow x x00) = BoundaryVector_assign (f x) d0
  else fst (run cfg) = Abort
       /\ count_advance (snd (run cfg)) = 0.
Proof.
  intros Hs Hmt Hic Hsub x x00.
  destruct (prelude_startup cfg []) as (a0 & Ha0 & Hp0 & _).
  rewrite Hs in Ha0. cbn [snd app] in Ha0. subst log0.
  destruct (before_loop_nothing _ Hp0) as (Hadv0 & _).
  assert (Hic' := initial_condition_subtract cfg (setup_grid_ s)
                    (setup_geom s) (setup_x00 s) a0 Hmt Hic Hsub).
  destruct (prelude_initial_condition cfg (setup_modelType s) (setup_grid_ s)
              (setup_geom s) (setup_x00 s) a0) as (a1 & Ha1 & Hp1 & _).
  destruct (before_loop_nothing _ Hp1) as (Hadv1 & _).
  unfold run, main. rewrite (bind_normal _ _ _ Hs).
  destruct (initial_condition cfg (setup_modelType s) (setup_grid_ s)
              (setup_geom s) (setup_x00 s) a0) as [r l1] eqn:Hr.
  cbn [fst snd] in Hic', Ha1. subst l1. fold x x00 in Hic'.
  destruct (same_Ngrid x x00); subst r.
  - rewrite (bind_normal _ _ _ Hr).
    destruct (time_loop_result cfg (setup_solver s)
                (subtract_baseflow x x00) (a0 ++ a1))
      as (a2 & Htl & Ha2 & _).
    rewrite Htl. cbn [fst snd].
    split; [reflexivity|]. split; [|repeat split].
    rewrite !advanced_states_app, Hadv0, Hadv1, Ha2. reflexivity.
  - unfold bind. rewrite Hr. cbn [fst snd].
    split; [reflexivity|].
    rewrite count_advance_length, advanced_states_app, Hadv0, Hadv1.
    reflexivity.
Qed.

(** With no initial-condition file named, a run that reaches line 216 writes
    "Using zero initial condition" and goes through the loop from the zeroed
    state, for every model and whatever the subbaseflow flag says: nothing
    is read and nothing is subtracted. *)
Theorem no_ic_file_zero_state (cfg : Config) (s : Setup) (log0 : list Event) :
  startup cfg [] = (Normal s, log0) ->
  icFile cfg = "" ->
  let x := zero_state (setup_grid_ s) (setup_geom s) in
  exists after,
    run cfg
    = (Normal 0%Z,
       log0 ++ [cout "Using zero initial condition";
                cout_int "initial time = " (timestep x) ""] ++ after)
    /\ advanced_states (snd (run cfg))
       = trajectory (Z.to_nat (numSteps cfg)) (setup_solver s) x
    /\ In (logger_doOutput x) after.
Proof.
  intros Hs Hic x.
  assert (Hq := quiet_states [] (quiet_startup cfg)).
  rewrite Hs in Hq. cbn [snd advanced_states] in Hq.
  assert (Hi : initial_condition cfg (setup_modelType s) (setup_grid_ s)
                 (setup_geom s) (setup_x00 s) log0
               = (Normal x,
                  log0 ++ [cout "Using zero initial condition";
                           cout_int "initial time = " (timestep x) ""])).
  { unfold initial_condition. rewrite Hic. cbn. unfold emit.
    rewrite <- app_assoc. reflexivity. }
  unfold run, main. rewrite (bind_normal _ _ _ Hs), (bind_normal _ _ _ Hi).
  destruct (time_loop_result cfg (setup_solver s) x
              (log0 ++ [cout "Using zero initial condition";
                        cout_int "initial time = " (timestep x) ""]))
    as (a2 & Htl & Ha2 & Hin).
  rewrite Htl. exists a2. cbn [fst snd].
  split; [rewrite <- app_assoc; reflexivity|]. split; [|exact Hin].
  rewrite !advanced_states_app, Hq, Ha2. reflexivity.
Qed.

(** ** The loop and the logger *)

Lemma setup_logger_console cfg x log :
  exists added,
    setup_logger cfg x log = (Normal tt, log ++ added)
    /\ advanced_states added = []
    /\ logged_states added = [x]
    /\ step_numbers added = []
    /\ registered added = wanted_outputs cfg.
Proof.
  unfold setup_logger, wanted_outputs. cbn [filter snd].
  rewrite !Z.gtb_ltb.
  destruct (0 <? iTecplot cfg)%Z; destruct (0 <? iRestart cfg)%Z;
    destruct (0 <? iForce cfg)%Z; cbn; unfold emit;
    repeat (rewrite <- app_assoc; cbn [app]);
    eexists; (split; [reflexivity|]); repeat split.
Qed.

Lemma integrate_console (todo : nat) :
  forall i solver x log, exists sx added,
    integrate todo i solver x log = (Normal sx, log ++ added)
    /\ advanced_states added = trajectory todo solver x
    /\ logged_states added = tl (trajectory (S todo) solver x)
    /\ step_numbers added = count_from i todo
    /\ registered added = [].
Proof.
  induction todo as [|todo IH]; intros i solver x log.
  - exists (solver, x), []. rewrite app_nil_r. repeat split.
  - cbn [integrate].
    change (tl (trajectory (S (S todo)) solver x))
      with (trajectory (S todo) (fst (TimeStepper_advance solver x))
                                (snd (TimeStepper_advance solver x))).
    cbn [trajectory count_from].
    destruct (TimeStepper_advance solver x) as [solver' x'] eqn:Hadv.
    destruct (computeNetForce x') as [drag lift].
    unfold bind at 1. cbn [emit]. unfold bind at 1. cbn [emit].
    unfold bind at 1. cbn [emit]. unfold bind at 1. cbn [emit].
    cbn [fst snd].
    match goal with
    | |- context [integrate todo ?j solver' x' ?l] =>
        destruct (IH j solver' x' l) as (sx & added & Hi & Ha & Hl & Hn & Hr)
    end.
    rewrite Hi. repeat rewrite <- app_assoc. cbn [app].
    do 2 eexists. split; [reflexivity|].
    cbn [advanced_states logged_states step_numbers registered].
    change ("step " =? "step ") with true. cbv iota.
    rewrite Ha, Hl, Hn, Hr. cbn [trajectory tl]. repeat split.
Qed.

Lemma time_loop_console cfg solver x log :
  let n := Z.to_nat (numSteps cfg) in
  exists added,
    time_loop cfg solver x log = (Normal 0%Z, log ++ added)
    /\ advanced_states added = trajectory n solver x
    /\ logged_states added = trajectory (S n) solver x
    /\ step_numbers added = count_from 1 n
    /\ registered added = wanted_outputs cfg
    /\ exists mid,
         added = mid ++ [logger_cleanup; delete_solver; delete_model].
Proof.
  intros n. unfold time_loop.
  destruct (setup_logger_console cfg x log) as (a1 & H1 & A1 & L1 & N1 & R1).
  rewrite (bind_normal _ _ _ H1).
  destruct (integrate_console n 1 solver x (log ++ a1))
    as (sx & a2 & H2 & A2 & L2 & N2 & R2).
  fold n. rewrite (bind_normal _ _ _ H2). cbn.
  exists (a1 ++ a2 ++ [logger_cleanup; delete_solver; delete_model]).
  unfold emit. repeat (rewrite <- app_assoc; cbn [app]).
  split; [reflexivity|].
  rewrite !advanced_states_app, !logged_states_app, !step_numbers_app,
    !registered_app, A1, A2, L1, L2, N1, N2, R1, R2.
  cbn. rewrite !app_nil_r.
  repeat split.
  exists (a1 ++ a2). rewrite <- app_assoc. reflexivity.
Qed.

Lemma last_after (l1 l2 : list Event) (d : Event) :
  l2 <> [] -> last (l1 ++ l2) d = last l2 d.
Proof.
  intros H. rewrite (app_removelast_last d H), app_assoc, !last_last.
  reflexivity.
Qed.

Lemma run_returns (cfg : Config) (r : Z) :
  fst (run cfg) = Normal r ->
  exists s x before added,
    run cfg = (Normal r, before ++ added)
    /\ forallb before_loop before = true
    /\ time_loop cfg (setup_solver s) x before = (Normal r, before ++ added).
Proof.
  intros H.
  destruct (prelude_startup cfg []) as (a0 & Ha0 & Hp0 & _).
  cbn [app] in Ha0. unfold run, main in *.
  destruct (startup cfg []) as [[s| c |] l0] eqn:Hs;
    [|unfold bind in H; rewrite Hs in H; discriminate H
     |unfold bind in H; rewrite Hs in H; discriminate H].
  cbn [snd] in Ha0. subst l0.
  rewrite (bind_normal _ _ _ Hs) in H |- *.
  destruct (prelude_initial_condition cfg (setup_modelType s) (setup_grid_ s)
              (setup_geom s) (setup_x00 s) a0) as (a1 & Ha1 & Hp1 & _).
  destruct (initial_condition cfg (setup_modelType s) (setup_grid_ s)
              (setup_geom s) (setup_x00 s) a0) as [[x| c |] l1] eqn:Hi;
    [|unfold bind in H; rewrite Hi in H; discriminate H
     |unfold bind in H; rewrite Hi in H; discriminate H].
  cbn [snd] in Ha1. subst l1.
  rewrite (bind_normal _ _ _ Hi) in H |- *.
  destruct (time_loop_console cfg (setup_solver s) x (a0 ++ a1))
    as (a2 & Htl & _).
  rewrite Htl in H |- *. cbn [fst] in H. injection H as <-.
  exists s, x, (a0 ++ a1), a2.
  split; [reflexivity|]. split; [|exact Htl].
  rewrite forallb_app, Hp0, Hp1. reflexivity.
Qed.

(** Every run that returns, returns 0, having called [advance] once for each
    i = 1, ..., numSteps and not at all when numSteps is 0 or negative; the
    lines "step i" on the console count 1, 2, ..., numSteps, and each call
    gets the state the call before it left. *)
Theorem completed_run_steps (cfg : Config) (r : Z) :
  fst (run cfg) = Normal r ->
  let n := Z.to_nat (numSteps cfg) in
  r = 0%Z
  /\ count_advance (snd (run cfg)) = n
  /\ step_numbers (snd (run cfg)) = count_from 1 n
  /\ ((numSteps cfg <= 0)%Z -> advanced_states (snd (run cfg)) = [])
  /\ exists solver x,
       advanced_states (snd (run cfg)) = trajectory n solver x.
Proof.
  intros H n.
  destruct (run_returns cfg H) as (s & x & before & added & Hr & Hb & Htl).
  destruct (before_loop_nothing _ Hb) as (B1 & B2 & B3 & B4).
  destruct (time_loop_console cfg (setup_solver s) x before)
    as (a2 & Htl' & A2 & L2 & N2 & R2 & Hlast).
  rewrite Htl in Htl'. injection Htl' as Hr0 Hadd.
  apply app_inv_head in Hadd. subst a2. fold n in A2, N2.
  rewrite Hr. cbn [snd].
  rewrite count_advance_length, advanced_states_app, step_numbers_app, B1, B3,
    A2, N2. cbn [app].
  split; [exact Hr0|]. split; [apply trajectory_length|].
  split; [reflexivity|]. split.
  - intros Hle. unfold n. replace (Z.to_nat (numSteps cfg)) with 0%nat by lia.
    reflexivity.
  - exists (setup_solver s), x. reflexivity.
Qed.

(** In every run that returns, the logger is given exactly the outputs whose
    cadence is positive, in the order Tecplot, restart, force; it is handed
    the initial state before the first step and then the state after each
    step, numSteps + 1 states in all, which are the states [advance] was
    called on followed by the final state; and the run ends with
    [logger.cleanup()], [delete solver], [delete model], in this order. *)
Theorem completed_run_logger (cfg : Config) (r : Z) :
  fst (run cfg) = Normal r ->
  let n := Z.to_nat (numSteps cfg) in
  registered (snd (run cfg)) = wanted_outputs cfg
  /\ List.length (logged_states (snd (run cfg))) = S n
  /\ removelast (logged_states (snd (run cfg)))
     = advanced_states (snd (run cfg))
  /\ exists before,
       snd (run cfg)
       = before ++ [logger_cleanup; delete_solver; delete_model].
Proof.
  intros H n.
  destruct (run_returns cfg H) as (s & x & before & added & Hr & Hb & Htl).
  destruct (before_loop_nothing _ Hb) as (B1 & B2 & B3 & B4).
  destruct (time_loop_console cfg (setup_solver s) x before)
    as (a2 & Htl' & A2 & L2 & N2 & R2 & mid & Hmid).
  rewrite Htl in Htl'. injection Htl' as Hr0 Hadd.
  apply app_inv_head in Hadd. subst a2. fold n in A2, L2.
  rewrite Hr. cbn [snd].
  rewrite registered_app, logged_states_app, advanced_states_app, B1, B2, B4,
    A2, L2, R2. cbn [app].
  split; [reflexivity|]. split; [apply trajectory_length|]. split.
  - clear. generalize (setup_solver s) x.
    induction n as [|k IH]; intros solver y; [reflexivity|].
    change (trajectory (S (S k)) solver y)
      with (y :: trajectory (S k) (fst (TimeStepper_advance solver y))
                                  (snd (TimeStepper_advance solver y))).
    change (trajectory (S k) solver y)
      with (y :: trajectory k (fst (TimeStepper_advance solver y))
                              (snd (TimeStepper_advance solver y))).
    rewrite <- IH. reflexivity.
  - exists (before ++ mid). rewrite Hmid, app_assoc. reflexivity.
Qed.

(** Every [exit] that main or GetSolver calls lies before the loop: if a run
    ends in [exit(c)], then c is 1 or -1, [advance] has not been called and
    the logger has not been handed any state.  And a run that returns,
    returns 0. *)
Theorem exits_come_before_the_loop (cfg : Config) :
  match fst (run cfg) with
  | Normal r => r = 0%Z
  | Exit c =>
      (c = 1 \/ c = -1)%Z
      /\ count_advance (snd (run cfg)) = 0
      /\ logged_states (snd (run cfg)) = []
  | Abort => True
  end.
Proof.
  destruct (prelude_startup cfg []) as (a0 & Ha0 & Hp0 & Hc0).
  destruct (before_loop_nothing _ Hp0) as (A0 & L0 & _).
  cbn [app] in Ha0. unfold run, main.
  destruct (startup cfg []) as [[s| c |] l0] eqn:Hs; cbn [fst snd] in Ha0, Hc0;
    subst l0.
  - rewrite (bind_normal _ _ _ Hs).
    destruct (prelude_initial_condition cfg (setup_modelType s)
                (setup_grid_ s) (setup_geom s) (setup_x00 s) a0)
      as (a1 & Ha1 & Hp1 & Hc1).
    destruct (before_loop_nothing _ Hp1) as (A1 & L1 & _).
    destruct (initial_condition cfg (setup_modelType s) (setup_grid_ s)
                (setup_geom s) (setup_x00 s) a0) as [[x| c |] l1] eqn:Hi;
      cbn [fst snd] in Ha1, Hc1; subst l1.
    + rewrite (bind_normal _ _ _ Hi).
      destruct (time_loop_result cfg (setup_solver s) x (a0 ++ a1))
        as (a2 & Htl & _).
      rewrite Htl. reflexivity.
    + rewrite (bind_exit _ _ _ Hi). cbn [fst snd].
      split; [apply Hc1; reflexivity|].
      rewrite count_advance_length, advanced_states_app, logged_states_app,
        A0, A1, L0, L1. split; reflexivity.
    + unfold bind. rewrite Hi. exact I.
  - rewrite (bind_exit _ _ _ Hs). cbn [fst snd].
    split; [apply Hc0; reflexivity|].
    rewrite count_advance_length, A0, L0. split; reflexivity.
  - unfold bind. rewrite Hs. exact I.
Qed.

End Extras.

Import Sample MoreSamples.

Local Open Scope string_scope.
Local Open Scope list_scope.

(** [ibpm -model spectral]: the name is not known. *)
Lemma usage_and_exit_witness :
  let cfg := command_line "spectral" "" "" "" false "rk2" 3 1 0 100 false in
  run_with ["ibpm.geom"] cfg
  = (Exit 1,
     [cout "Immersed Boundary Projection Method (IBPM), version IBPM_VERSION";
      cerr "Unrecognized model: spectral";
      parser_printUsage]).
Proof.
  cbv zeta.
  exact (@usage_and_exit ListFields (collaborators ["ibpm.geom"])
           (steppers ["ibpm.geom"])
           (command_line "spectral" "" "" "" false "rk2" 3 1 0 100 false)
           eq_refl).
Defined.

(** [ibpm] in a directory without ibpm.geom. *)
Lemma no_geometry_exit_witness :
  let cfg := command_line "nonlinear" "" "" "" false "rk2" 3 1 0 100 false in
  fst (run_with [] cfg) = Exit (-1)
  /\ last (snd (run_with [] cfg)) (cout "")
     = cout "Reading geometry from file ibpm.geom".
Proof.
  cbv zeta.
  pose proof (@no_geometry_exit ListFields (collaborators []) (steppers [])
                (command_line "nonlinear" "" "" "" false "rk2" 3 1 0 100 false)
                eq_refl eq_refl I eq_refl) as H.
  unfold run_with. rewrite H. split; reflexivity.
Defined.

(** [ibpm -scheme rk4] *)
Lemma unknown_scheme_exit_witness :
  let cfg := command_line "nonlinear" "" "" "" false "rk4" 3 1 0 100 false in
  fst (run_with ["ibpm.geom"] cfg) = Exit 1
  /\ last (snd (run_with ["ibpm.geom"] cfg)) (cout "")
     = cerr "ERROR: unrecognized solver: rk4"
  /\ count_advance (snd (run_with ["ibpm.geom"] cfg)) = 0.
Proof.
  cbv zeta.
  destruct (@unknown_scheme_exit ListFields (collaborators ["ibpm.geom"])
              (steppers ["ibpm.geom"])
              (command_line "nonlinear" "" "" "" false "rk4" 3 1 0 100 false)
              eq_refl eq_refl I)
    as (model & before & Hr & Hc & _).
  - intros H. discriminate H.
  - reflexivity.
  - reflexivity.
  - unfold run_with. rewrite Hr. cbn [fst snd].
    split; [reflexivity|]. split; [|rewrite Hr in Hc; exact Hc].
    rewrite last_after; [reflexivity | discriminate].
Defined.

(** [ibpm -model linearperiodic -pbaseflowname flow%05d.bin -period 2
    -periodstart 5] where flow00006.bin is there and flow00005.bin is not:
    the first state stays fresh, the second is the one stored. *)
Lemma periodic_baseflow_files_witness :
  let files := ["ibpm.geom"; "flow00006.bin"] in
  let cfg := command_line "linearperiodic" "" "flow%05d.bin" "" false "rk2"
               3 2 5 100 false in
  sprintf_05d "flow%05d.bin" 5 = "flow00005.bin"
  /\ sprintf_05d "flow%05d.bin" 6 = "flow00006.bin"
  /\ fst (@setup_model ListFields (numbered_collaborators files) cfg
            LINEARPERIODIC (200, 200, 1)%Z 1%Z [])
     = Normal (@LinearizedPeriodicNavierStokes ListFields
                 (numbered_collaborators files)
                 (200, 200, 1)%Z 1%Z 100%float [fresh_state; stored_state] 2,
               fresh_state).
Proof.
  cbv zeta. split; [reflexivity|]. split; [reflexivity|].
  pose (cfg := command_line "linearperiodic" "" "flow%05d.bin" "" false "rk2"
                 3 2 5 100 false).
  assert (Hp : (1 <= period cfg)%Z) by (apply Z.leb_le; reflexivity).
  assert (Hlo : (-2147483648 <= periodStart cfg)%Z)
    by (apply Z.leb_le; reflexivity).
  assert (Hhi : (periodStart cfg + period cfg <= 2147483648)%Z)
    by (apply Z.leb_le; reflexivity).
  assert (Hbuf : forall k, (0 <= k < period cfg)%Z ->
            (String.length
               (@sprintf ListFields
                  (numbered_collaborators ["ibpm.geom"; "flow00006.bin"])
                  (periodBaseFlowName cfg) (k + periodStart cfg))
             <= 255)%nat).
  { intros k Hk. change (period cfg) with 2%Z in Hk.
    assert (Hk' : k = 0%Z \/ k = 1%Z) by lia.
    destruct Hk' as [-> | ->]; apply Nat.leb_le; reflexivity. }
  destruct (@periodic_baseflow_files ListFields
              (numbered_collaborators ["ibpm.geom"; "flow00006.bin"])
              cfg (200, 200, 1)%Z 1%Z [] Hp Hlo Hhi Hbuf) as [H _].
  exact H.
Defined.

(** [ibpm -scheme Euler] with no saved stepper: cold start. *)
Lemma stepper_resumed_or_initialised_witness :
  let files := ["ibpm.geom"] in
  let cfg := command_line "nonlinear" "" "" "" false "Euler" 3 1 0 100 false in
  let model := @NonlinearNavierStokes ListFields (collaborators files)
                 (200, 200, 1)%Z 1%Z 100%float [1%float; 1%float] in
  @setup_timestepper ListFields (collaborators files) (steppers files) cfg
    "./" (200, 200, 1)%Z model []
  = (Normal "Euler",
     [cout "Using Euler timestepper";
      cout_double "  dt = " (1 / 100)%float;
      solver_save "./ibpm"]).
Proof.
  cbv zeta.
  destruct (@stepper_resumed_or_initialised ListFields
              (collaborators ["ibpm.geom"]) (steppers ["ibpm.geom"])
              (command_line "nonlinear" "" "" "" false "Euler" 3 1 0 100 false)
              "./" (200, 200, 1)%Z
              (@NonlinearNavierStokes ListFields (collaborators ["ibpm.geom"])
                 (200, 200, 1)%Z 1%Z 100%float [1%float; 1%float])
              [] eq_refl)
    as (solver & Hg & H).
  injection Hg as <-. exact H.
Defined.

(** [ibpm -model linear -baseflow base.bin -ic ic.bin -subbaseflow 1] with
    both files there and holding the same state: the loop starts from the
    difference. *)
Lemma subtraction_for_linear_models_witness :
  let files := ["ibpm.geom"; "base.bin"; "ic.bin"] in
  let cfg := command_line "linear" "base.bin" "" "ic.bin" true "rk2"
               3 1 0 100 false in
  fst (run_with files cfg) = Normal 0%Z
  /\ hd_error (advanced_states (snd (run_with files cfg)))
     = Some (@mkState ListFields [0%float; 0%float] [0%float; 0%float]
               [0%float] 10).
Proof.
  cbv zeta.
  pose (files := ["ibpm.geom"; "base.bin"; "ic.bin"]).
  pose (cfg := command_line "linear" "base.bin" "" "ic.bin" true "rk2"
                 3 1 0 100 false).
  assert (Hs : @startup ListFields (collaborators files) (steppers files)
                 cfg []
               = (Normal (setup_reached files cfg),
                  snd (@startup ListFields (collaborators files)
                         (steppers files) cfg [])))
    by reflexivity.
  assert (Hm : setup_modelType (setup_reached files cfg) <> NONLINEAR)
    by discriminate.
  assert (Hic : icFile cfg <> "") by discriminate.
  pose proof (subtraction_for_linear_models cfg Hs Hm Hic eq_refl) as H.
  cbv zeta in H.
  change (same_Ngrid _ _) with true in H. cbv iota in H.
  destruct H as (H1 & H2 & _).
  split; [exact H1|].
  unfold run_with. fold files. fold cfg. rewrite H2. reflexivity.
Defined.

(** [ibpm -model linear -baseflow base.bin -subbaseflow 1]: no ic file, the
    flag is not looked at. *)
Lemma no_ic_file_zero_state_witness :
  let files := ["ibpm.geom"; "base.bin"] in
  let cfg := command_line "linear" "base.bin" "" "" true "rk2"
               3 1 0 100 false in
  fst (run_with files cfg) = Normal 0%Z
  /\ hd_error (advanced_states (snd (run_with files cfg)))
     = Some (@mkState ListFields [0%float; 0%float] [0%float; 0%float]
               [0%float] 0).
Proof.
  cbv zeta.
  pose (files := ["ibpm.geom"; "base.bin"]).
  pose (cfg := command_line "linear" "base.bin" "" "" true "rk2"
                 3 1 0 100 false).
  assert (Hs : @startup ListFields (collaborators files) (steppers files)
                 cfg []
               = (Normal (setup_reached files cfg),
                  snd (@startup ListFields (collaborators files)
                         (steppers files) cfg [])))
    by reflexivity.
  destruct (no_ic_file_zero_state cfg Hs eq_refl) as (after & Hr & Ha & _).
  unfold run_with. fold files. fold cfg.
  split; [rewrite Hr; reflexivity|]. rewrite Ha. reflexivity.
Defined.

(** [ibpm -nsteps 2] *)
Lemma completed_run_steps_witness :
  let cfg := command_line "nonlinear" "" "" "" false "rk2" 2 1 0 100 false in
  count_advance (snd (run_with ["ibpm.geom"] cfg)) = 2
  /\ step_numbers (snd (run_with ["ibpm.geom"] cfg)) = [1; 2]%Z.
Proof.
  cbv zeta.
  destruct (@completed_run_steps ListFields (collaborators ["ibpm.geom"])
              (steppers ["ibpm.geom"])
              (command_line "nonlinear" "" "" "" false "rk2" 2 1 0 100 false)
              0%Z eq_refl)
    as (_ & H1 & H2 & _).
  split; [exact H1 | exact H2].
Defined.

(** [ibpm -nsteps 2 -tecplot 0]: no Tecplot output is registered. *)
Lemma completed_run_logger_witness :
  let cfg := command_line "nonlinear" "" "" "" false "rk2" 2 1 0 0 false in
  registered (snd (run_with ["ibpm.geom"] cfg))
  = [(OutputRestart, 100%Z); (OutputForce, 1%Z)]
  /\ List.length (logged_states (snd (run_with ["ibpm.geom"] cfg))) = 3
  /\ exists before,
       snd (run_with ["ibpm.geom"] cfg)
       = before ++ [logger_cleanup; delete_solver; delete_model].
Proof.
  cbv zeta.
  destruct (@completed_run_logger ListFields (collaborators ["ibpm.geom"])
              (steppers ["ibpm.geom"])
              (command_line "nonlinear" "" "" "" false "rk2" 2 1 0 0 false)
              0%Z eq_refl)
    as (H1 & H2 & _ & H4).
  split; [exact H1|]. split; [exact H2 | exact H4].
Defined.

End DriverExtras.
